(** * MAPF-Planner, package arch_test: the test nodes of utils.py and
      test_manager.py

    The nodes of the package talk to their host (the ROS client library and
    the Python runtime) and one of their methods may loop for ever, so each
    method is embedded as an interaction tree over the events of the host;
    a fuel-indexed interpreter runs a tree against a description of the
    host and records every effect. *)

From Stdlib Require Import String Ascii List ZArith Lia Bool Arith DecimalString.
From ITree Require Import ITree Eq.Shallow.
Import ListNotations.
Import ITreeNotations.
Local Open Scope string_scope.
Local Open Scope list_scope.
Local Open Scope itree_scope.

Set Implicit Arguments.

(** ** Python floats

    The durations, coordinates and their printed forms are Python floats.
    Their arithmetic plays no part in the package; what the methods use is
    listed here and kept abstract. *)

Class PyFloat : Type := {
  float64 : Type;
  (** [float(s)]: [None] when Python raises ValueError. *)
  float : string -> option float64;
  (** [repr(x)], which [str] of a tuple applies to its components. *)
  float_repr : float64 -> string;
  (** [time.sleep(secs)] returns for the lengths it accepts and raises for
      the others (a negative length, a NaN, a length too large). *)
  sleep_accepts : float64 -> bool;
  (** The literal [0.1] of the polling loop, a length [sleep] accepts. *)
  poll_period : float64;
  poll_period_accepted : sleep_accepts poll_period = true;
  (** The literals [0.0] and [1.0] of a default-constructed message. *)
  float_zero : float64;
  float_one : float64
}.

(** ** Constants of arch_components.manager

    [ManagerRequestTypes] and [ManagerResponseTypes] are declared in
    arch_components/manager.py, which is not among the source files. The
    methods pass and compare their members as strings ([agent_msg: str]),
    so the members are parameters here; the spec calls the two types
    enumerated, which keeps the members of each apart. *)

Class ManagerTypes : Type := {
  IDLE : string;
  AGENT_DISCONNECTED : string;
  WAIT_PLAN : string;
  RETRY : string;
  request_types_distinct : IDLE <> AGENT_DISCONNECTED;
  response_types_distinct : WAIT_PLAN <> RETRY
}.

(** ** Messages

    The fields keep their names, with a prefix where two messages share a
    name: [vx], [vy], [vz] for the x, y, z of a Vector3, [px], [py], [pw]
    for the x, y, w of a Position, [path_agent_id] for the agent_id of an
    AssignedPath. *)

Section Messages.
Context {PF : PyFloat}.

(** geometry_msgs/Vector3 *)
Record Vector3 : Type := { vx : float64; vy : float64; vz : float64 }.

(** geometry_msgs/Quaternion *)
Record Quaternion : Type :=
  { qx : float64; qy : float64; qz : float64; qw : float64 }.

(** geometry_msgs/Transform *)
Record Transform : Type :=
  { translation : Vector3; rotation : Quaternion }.

(** builtin_interfaces/Time *)
Record Time : Type := { sec : Z; nanosec : Z }.

(** std_msgs/Header *)
Record Header : Type := { stamp : Time; frame_id : string }.

(** geometry_msgs/TransformStamped *)
Record TransformStamped : Type :=
  { header : Header; child_frame_id : string; transform : Transform }.

(** arch_interfaces/Position *)
Record Position : Type := { px : float64; py : float64; pw : float64 }.

(** arch_interfaces/AssignedPath *)
Record AssignedPath : Type :=
  { path_agent_id : string; path : list Transform }.

(** arch_interfaces/AgentPaths *)
Record AgentPaths : Type := { agent_paths : list AssignedPath }.

(** arch_interfaces/AgentRequest, request and response *)
Record Request : Type := { agent_msg : string; agent_id : string }.
Record Response : Type := { error_msg : string; args : list string }.

(** [AgentRequest.Request(agent_msg=..., agent_id=...)] *)
Definition AgentRequest_Request (agent_msg agent_id : string) : Request :=
  {| agent_msg := agent_msg; agent_id := agent_id |}.

(** [TransformStamped()]: every field at the default of its type. *)
Definition TransformStamped_new : TransformStamped :=
  {| header := {| stamp := {| sec := 0; nanosec := 0 |}; frame_id := "" |};
     child_frame_id := "";
     transform :=
       {| translation :=
            {| vx := float_zero; vy := float_zero; vz := float_zero |};
          rotation :=
            {| qx := float_zero; qy := float_zero; qz := float_zero;
               qw := float_one |} |} |}.

End Messages.

(** ** The host

    Exceptions that the methods or the runtime raise; none is caught in the
    package, so a raised exception ends the run of the method. The failures
    of the client library itself (a call that never answers, a node that is
    shut down) are not part of the package and are left out. *)

Inductive PyExc : Type :=
| IndexError        (* [args[0]] on an empty list *)
| FloatValueError   (* [float(s)] on a string that is no float *)
| SleepError.       (* [sleep(secs)] on a length it refuses *)

(** How a run ends, when it ends. *)
Inductive Result (R : Type) : Type :=
| Returned (r : R)
| Raised (e : PyExc).
Arguments Raised {R} e.

Section Host.
Context {PF : PyFloat}.

(** What a method asks of its host. *)
Inductive hostE : Type -> Type :=
| ServiceIsReady : hostE bool                        (* cli.service_is_ready() *)
| Call (request : Request) : hostE Response          (* cli.call(request) *)
| Sleep (secs : float64) : hostE unit                (* sleep(secs) *)
| Raise (e : PyExc) : hostE Empty_set                (* an uncaught exception *)
| LogInfo (line : string) : hostE unit               (* get_logger().info(line) *)
| Now : hostE Time                                   (* get_clock().now().to_msg() *)
| SendTransform (t : TransformStamped) : hostE unit  (* br.sendTransform(t) *)
| Publish (topic : string) (goal : Position) : hostE unit. (* publisher.publish(goal) *)

Definition raise {A : Type} (e : PyExc) : itree hostE A :=
  Vis (Raise e) (fun v : Empty_set => match v with end).

(** The effects a run leaves behind, in the order they happened. *)
Inductive Effect : Type :=
| Polled (ready : bool)
| Called (request : Request) (response : Response)
| Slept (secs : float64)
| Logged (line : string)
| Sent (t : TransformStamped)
| Published (topic : string) (goal : Position).

(** The answers of the host: the readiness of the service at its n-th
    poll, the response of the server to its n-th call, the n-th reading of
    the clock. *)
Record Host : Type := {
  service_ready : nat -> bool;
  server : nat -> Request -> Response;
  clock : nat -> Time
}.

Record World : Type := {
  polls : nat;
  calls : nat;
  clock_reads : nat;
  effects : list Effect
}.

Definition World_init : World :=
  {| polls := 0; calls := 0; clock_reads := 0; effects := [] |}.

Definition record (ev : Effect) (w : World) : World :=
  {| polls := polls w; calls := calls w; clock_reads := clock_reads w;
     effects := effects w ++ [ev] |}.

Definition polled (ready : bool) (w : World) : World :=
  {| polls := S (polls w); calls := calls w; clock_reads := clock_reads w;
     effects := effects w ++ [Polled ready] |}.

Definition called (request : Request) (response : Response) (w : World)
  : World :=
  {| polls := polls w; calls := S (calls w); clock_reads := clock_reads w;
     effects := effects w ++ [Called request response] |}.

Definition clock_read (w : World) : World :=
  {| polls := polls w; calls := calls w; clock_reads := S (clock_reads w);
     effects := effects w |}.

Definition handle (h : Host) {X : Type} (e : hostE X) (w : World)
  : World * (PyExc + X) :=
  match e in hostE X return World * (PyExc + X) with
  | ServiceIsReady =>
      let ready := service_ready h (polls w) in (polled ready w, inr ready)
  | Call request =>
      let response := server h (calls w) request in
      (called request response w, inr response)
  | Sleep secs =>
      if sleep_accepts secs then (record (Slept secs) w, inr tt)
      else (w, inl SleepError)
  | Raise e => (w, inl e)
  | LogInfo line => (record (Logged line) w, inr tt)
  | Now => (clock_read w, inr (clock h (clock_reads w)))
  | SendTransform t => (record (Sent t) w, inr tt)
  | Publish topic goal => (record (Published topic goal) w, inr tt)
  end.

(** [run h fuel t w]: at most [fuel] steps of [t] from the world [w];
    [None] when the fuel ran out before the method ended. *)
Fixpoint run (h : Host) {R : Type} (fuel : nat) (t : itree hostE R) (w : World)
  : World * option (Result R) :=
  match fuel with
  | O => (w, None)
  | S fuel' =>
      match observe t with
      | RetF r => (w, Some (Returned r))
      | TauF t' => run h fuel' t' w
      | VisF e k =>
          match handle h e w with
          | (w', inr x) => run h fuel' (k x) w'
          | (w', inl exc) => (w', Some (Raised exc))
          end
      end
  end.

(** The method ends in the world [w'] with the result [res]. *)
Definition finishes (h : Host) {R : Type} (t : itree hostE R) (w w' : World)
  (res : Result R) : Prop :=
  exists fuel, run h fuel t w = (w', Some res).

(** The method never ends: no amount of fuel is enough. *)
Definition diverges (h : Host) {R : Type} (t : itree hostE R) (w : World) : Prop :=
  forall fuel, snd (run h fuel t w) = None.

End Host.

(** ** The nodes of utils.py and test_manager.py *)

(** [FixedFrameBroadcaster]: the class is declared in both files with the
    same body; utils.py gives [freq] the default 0.00833. The fields are
    assigned in [__init__] only: no method of the package writes to them
    or to the position they hold. *)
Module FixedFrameBroadcaster.
Section Node.
Context {PF : PyFloat}.

Record t : Type := {
  node_name : string;
  parent_id : string;
  child_id : string;
  pos : Vector3;
  timer_period : float64
}.

Definition init (parent_frame_id child_frame_id : string) (pos : Vector3)
  (freq : float64) : t :=
  {| node_name := "FF_" ++ child_frame_id ++ "_broadcaster";
     parent_id := parent_frame_id;
     child_id := child_frame_id;
     pos := pos;
     timer_period := freq |}.

(** The assignments to the fields of the message, the local [t] of the
    callback. *)
Definition set_stamp (s : Time) (m : TransformStamped) : TransformStamped :=
  {| header := {| stamp := s; frame_id := frame_id (header m) |};
     child_frame_id := child_frame_id m; transform := transform m |}.

Definition set_frame_id (f : string) (m : TransformStamped) : TransformStamped :=
  {| header := {| stamp := stamp (header m); frame_id := f |};
     child_frame_id := child_frame_id m; transform := transform m |}.

Definition set_child_frame_id (c : string) (m : TransformStamped)
  : TransformStamped :=
  {| header := header m; child_frame_id := c; transform := transform m |}.

Definition set_translation (v : Vector3) (m : TransformStamped)
  : TransformStamped :=
  {| header := header m; child_frame_id := child_frame_id m;
     transform := {| translation := v; rotation := rotation (transform m) |} |}.

Definition set_x (x : float64) (m : TransformStamped) : TransformStamped :=
  let v := translation (transform m) in
  set_translation {| vx := x; vy := vy v; vz := vz v |} m.

Definition set_y (y : float64) (m : TransformStamped) : TransformStamped :=
  let v := translation (transform m) in
  set_translation {| vx := vx v; vy := y; vz := vz v |} m.

Definition set_z (z : float64) (m : TransformStamped) : TransformStamped :=
  let v := translation (transform m) in
  set_translation {| vx := vx v; vy := vy v; vz := z |} m.

Definition broadcast_timer_callback (self : t) : itree hostE unit :=
  let m := TransformStamped_new in
  now <- ITree.trigger Now ;;
  let m := set_stamp now m in
  let m := set_frame_id (parent_id self) m in
  let m := set_child_frame_id (child_id self) m in
  let m := set_x (vx (pos self)) m in
  let m := set_y (vy (pos self)) m in
  let m := set_z (vz (pos self)) m in
  ITree.trigger (SendTransform m).

(** The timer created by [init] fires the callback once per tick. *)
Fixpoint timer_ticks (n : nat) (self : t) : itree hostE unit :=
  match n with
  | O => Ret tt
  | S n' => broadcast_timer_callback self ;; timer_ticks n' self
  end.

End Node.
End FixedFrameBroadcaster.

(** [GoalPublisher]: a publisher of [Position] on the topic goals; the queue
    depth is 10 in utils.py and 1 in test_manager.py. *)
Module GoalPublisher.
Section Node.
Context {PF : PyFloat}.

Record t : Type := {
  node_name : string;
  topic : string;
  qos_depth : nat
}.

Definition init (depth : nat) : t :=
  {| node_name := "goal_publisher"; topic := "goals"; qos_depth := depth |}.

Definition publish_goal (self : t) (goal : Position) : itree hostE unit :=
  ITree.trigger (Publish (topic self) goal).

End Node.
End GoalPublisher.

(** [AgentTestExecutor] of utils.py. *)
Module AgentTestExecutor.
Section Node.
Context {PF : PyFloat} {MT : ManagerTypes}.

Record t : Type := {
  node_name : string;
  agent_id : string
}.

Definition init (agent_id : string) : t :=
  {| node_name := agent_id ++ "_executor"; agent_id := agent_id |}.

Definition request (self : t) (agent_msg : string) : Request :=
  AgentRequest_Request agent_msg (agent_id self).

(** [while not self.cli.service_is_ready(): sleep(0.1)] *)
Definition wait_for_service : itree hostE unit :=
  ITree.iter (fun _ : unit =>
    ready <- ITree.trigger ServiceIsReady ;;
    if negb ready
    then ITree.trigger (Sleep poll_period) ;; Ret (inl tt)
    else Ret (inr tt)) tt.

(** [response.args[0]] *)
Definition first_arg (response : Response) : itree hostE string :=
  match args response with
  | [] => raise IndexError
  | a :: _ => Ret a
  end.

(** [float(s)] *)
Definition to_float (s : string) : itree hostE float64 :=
  match float s with
  | None => raise FloatValueError
  | Some x => Ret x
  end.

(** One turn of [while response.error_msg == ManagerResponseTypes.RETRY]. *)
Definition retry_body (self : t) (agent_msg : string) (response : Response)
  : itree hostE (Response + unit) :=
  if String.eqb (error_msg response) RETRY then
    arg <- first_arg response ;;
    sleep_time <- to_float arg ;;
    ITree.trigger (Sleep sleep_time) ;;
    response' <- ITree.trigger (Call (request self agent_msg)) ;;
    Ret (inl response')
  else Ret (inr tt).

Definition retry_loop (self : t) (agent_msg : string) (response : Response)
  : itree hostE unit :=
  ITree.iter (retry_body self agent_msg) response.

Definition request_and_wait_for_response (self : t) (agent_msg : string)
  : itree hostE unit :=
  wait_for_service ;;
  response <- ITree.trigger (Call (request self agent_msg)) ;;
  retry_loop self agent_msg response.

(** The call without its argument: [agent_msg] defaults to
    [ManagerRequestTypes.IDLE]. *)
Definition request_and_wait_for_response_default (self : t)
  : itree hostE unit :=
  request_and_wait_for_response self IDLE.

Definition disconect_and_reconnect (self : t) : itree hostE unit :=
  request_and_wait_for_response self AGENT_DISCONNECTED ;;
  request_and_wait_for_response_default self.

(** [str((point.translation.x, point.translation.z))] *)
Definition str_point (point : Transform) : string :=
  "(" ++ float_repr (vx (translation point)) ++ ", "
      ++ float_repr (vz (translation point)) ++ ")".

Definition string_solution (assigned_path : AssignedPath) : string :=
  String.concat "-->" (map str_point (path assigned_path)).

Definition path_published (self : t) (assigned_path : AssignedPath) : string :=
  "PATH PUBLISHED FOR " ++ agent_id self ++ ": "
    ++ string_solution assigned_path.

Definition no_path_published (self : t) : string :=
  "NO PATH PUBLISHED FOR " ++ agent_id self.

(** The [for] loop of [sol_callback] with its [return], then the line after
    the loop. *)
Fixpoint scan_paths (self : t) (agent_paths : list AssignedPath)
  : itree hostE unit :=
  match agent_paths with
  | [] => ITree.trigger (LogInfo (no_path_published self))
  | assigned_path :: rest =>
      if String.eqb (path_agent_id assigned_path) (agent_id self)
      then ITree.trigger (LogInfo (path_published self assigned_path))
      else scan_paths self rest
  end.

Definition sol_callback (self : t) (msg : AgentPaths) : itree hostE unit :=
  scan_paths self (agent_paths msg).

End Node.
End AgentTestExecutor.

(** ** The Manager *)

Module Manager.
Section Node.
Context {PF : PyFloat} {MT : ManagerTypes}.

(** Modelled from the spec: the state of the Manager node, whose class
    (arch_components/manager.py) is not among the source files. The spec
    gives it the ordered collections [unassigned_agents] and
    [unassigned_goals] and speaks of a plan that is computed or not yet. *)
Record t : Type := {
  unassigned_agents : list string;
  unassigned_goals : list Position;
  plan : option AgentPaths
}.

(** Modelled from the spec: [Manager()], with nothing received yet (the
    tests find both collections empty on a fresh Manager). *)
Definition init : t :=
  {| unassigned_agents := []; unassigned_goals := []; plan := None |}.

(** Modelled from the spec: the subscription to the goal channel, which
    "accumulates" a published goal "into an unassigned-goals collection". *)
Definition goal_callback (self : t) (goal : Position) : t :=
  {| unassigned_agents := unassigned_agents self;
     unassigned_goals := unassigned_goals self ++ [goal];
     plan := plan self |}.

(** The replies that the spec does not describe. *)
Variable other_response : t -> Request -> Response.

Definition with_agents (agents : list string) (self : t) : t :=
  {| unassigned_agents := agents;
     unassigned_goals := unassigned_goals self;
     plan := plan self |}.

(** Modelled from the spec: [Manager.agent_callback(request, response)],
    missing with the class. "An agent transitions into unassigned_agents
    on an IDLE request and is removed on AGENT_DISCONNECTED"; "a client
    request for an agent with goals pending but no computed plan yet
    receives a WAIT_PLAN response, and the goal remains unassigned
    afterward". An agent that is already waiting is not entered twice; a
    disconnected agent is removed wherever it stands. *)
Definition agent_callback (self : t) (request : Request) : t * Response :=
  let id := agent_id request in
  if String.eqb (agent_msg request) IDLE then
    let agents :=
      if existsb (String.eqb id) (unassigned_agents self)
      then unassigned_agents self
      else unassigned_agents self ++ [id] in
    (with_agents agents self,
     match unassigned_goals self, plan self with
     | _ :: _, None => {| error_msg := WAIT_PLAN; args := [] |}
     | _, _ => other_response self request
     end)
  else if String.eqb (agent_msg request) AGENT_DISCONNECTED then
    (with_agents
       (filter (fun a => negb (String.eqb a id)) (unassigned_agents self)) self,
     other_response self request)
  else (self, other_response self request).

End Node.
End Manager.


(** [TestFrameBroadcaster] of utils.py: a node that broadcasts the frame of
    the arena and the frames of the agents on demand. [loc] is a tuple of
    three floats. *)
Module TestFrameBroadcaster.
Section Node.
Context {PF : PyFloat}.

Import FixedFrameBroadcaster.

Record t : Type := {
  node_name : string
}.

Definition init : t := {| node_name := "test_frame_broadcaster" |}.

Definition broadcast_arena (self : t) : itree hostE unit :=
  let m := TransformStamped_new in
  now <- ITree.trigger Now ;;
  let m := set_stamp now m in
  let m := set_frame_id "world" m in
  let m := set_child_frame_id "arena" m in
  let m := set_x float_one m in
  let m := set_y float_one m in
  let m := set_z float_one m in
  ITree.trigger (SendTransform m).

Definition broadcast_agent (self : t) (agent_id : string)
  (loc : float64 * float64 * float64) : itree hostE unit :=
  let m := TransformStamped_new in
  now <- ITree.trigger Now ;;
  let m := set_stamp now m in
  let m := set_frame_id "arena" m in
  let m := set_child_frame_id agent_id m in
  let m := set_x (fst (fst loc)) m in
  let m := set_y (snd (fst loc)) m in
  let m := set_z (snd loc) m in
  ITree.trigger (SendTransform m).

End Node.
End TestFrameBroadcaster.
(** ** Notions used in the statements *)

Section Notions.
Context {PF : PyFloat}.

(** What a message of the broadcaster [self] carries, whatever its stamp. *)
Definition carries (self : FixedFrameBroadcaster.t) (m : TransformStamped)
  : Prop :=
  frame_id (header m) = FixedFrameBroadcaster.parent_id self /\
  child_frame_id m = FixedFrameBroadcaster.child_id self /\
  vx (translation (transform m)) = vx (FixedFrameBroadcaster.pos self) /\
  vy (translation (transform m)) = vy (FixedFrameBroadcaster.pos self) /\
  vz (translation (transform m)) = vz (FixedFrameBroadcaster.pos self).

(** The length of sleep that a response asks for: the float of its first
    argument, when it has one and [float] reads it. *)
Definition retry_delay (response : Response) : option float64 :=
  match args response with
  | [] => None
  | a :: _ => float a
  end.

(** What [float(response.args[0])] raises when [retry_delay] is [None]. *)
Definition conversion_error (response : Response) : PyExc :=
  match args response with
  | [] => IndexError
  | _ :: _ => FloatValueError
  end.

(** A message whose points have their translation y replaced by what [g]
    gives; everything else is kept. *)
Definition set_point_y (g : Transform -> float64) (point : Transform)
  : Transform :=
  {| translation := {| vx := vx (translation point); vy := g point;
                       vz := vz (translation point) |};
     rotation := rotation point |}.

Definition relabel_y (g : Transform -> float64) (msg : AgentPaths)
  : AgentPaths :=
  {| agent_paths :=
       map (fun ap => {| path_agent_id := path_agent_id ap;
                         path := map (set_point_y g) (path ap) |})
           (agent_paths msg) |}.

End Notions.

(** ** A sample host

    Floats that count tenths of a second and read whole numbers of seconds,
    the enumerations with their names as values: enough to run the methods
    on concrete inputs. *)

Module Sample.
Local Open Scope Z_scope.

Definition digit (c : Ascii.ascii) : option Z :=
  let n := Z.of_nat (Ascii.nat_of_ascii c) in
  if (48 <=? n) && (n <=? 57) then Some (n - 48) else None.

Fixpoint digits (s : string) (acc : Z) : option Z :=
  match s with
  | EmptyString => Some acc
  | String c s' =>
      match digit c with
      | Some d => digits s' (10 * acc + d)
      | None => None
      end
  end.

Definition seconds (s : string) : option Z :=
  match s with
  | EmptyString => None
  | String "-" EmptyString => None
  | String "-" s' => option_map (fun n => - (10 * n)) (digits s' 0)
  | _ => option_map (fun n => 10 * n) (digits s 0)
  end.

Definition tenths_repr (z : Z) : string :=
  (if z <? 0 then "-" else "")
    ++ NilZero.string_of_uint (N.to_uint (Z.to_N (Z.abs z / 10))) ++ "."
    ++ NilZero.string_of_uint (N.to_uint (Z.to_N (Z.abs z mod 10))).

Definition floats : PyFloat :=
  {| float64 := Z;
     float := seconds;
     float_repr := tenths_repr;
     sleep_accepts := fun z => 0 <=? z;
     poll_period := 1;
     poll_period_accepted := eq_refl;
     float_zero := 0;
     float_one := 10 |}.

Definition manager_types : ManagerTypes :=
  {| IDLE := "IDLE";
     AGENT_DISCONNECTED := "AGENT_DISCONNECTED";
     WAIT_PLAN := "WAIT_PLAN";
     RETRY := "RETRY";
     request_types_distinct := ltac:(discriminate);
     response_types_distinct := ltac:(discriminate) |}.

(** A service that is ready from its poll number [busy] on, a server that
    answers the given responses in turn and then [last] for ever. *)
Definition host (busy : nat) (responses : list Response) (last : Response)
  : Host :=
  {| service_ready := fun n => (busy <=? n)%nat;
     server := fun n _ => nth n responses last;
     clock := fun n => {| sec := Z.of_nat n; nanosec := 0 |} |}.

Definition retry (args : list string) : Response :=
  {| error_msg := "RETRY"; args := args |}.

Definition wait_plan : Response :=
  {| error_msg := "WAIT_PLAN"; args := [] |}.

#[local] Existing Instance floats.
#[local] Existing Instance manager_types.

(** The executor and the broadcast messages of the examples. *)
Definition executor : AgentTestExecutor.t := AgentTestExecutor.init "agent_1".

Definition idle_request : Request := AgentRequest_Request "IDLE" "agent_1".

Definition point (x y z : Z) : Transform :=
  {| translation := {| vx := x; vy := y; vz := z |};
     rotation := {| qx := 0; qy := 0; qz := 0; qw := 10 |} |}.

Definition paths_for_agent_1 : AgentPaths :=
  {| agent_paths :=
       [ {| path_agent_id := "agent_2"; path := [point 0 0 0] |};
         {| path_agent_id := "agent_1";
            path := [point 10 20 30; point 40 50 60] |};
         {| path_agent_id := "agent_1"; path := [point 70 80 90] |} ] |}.

Definition paths_for_others : AgentPaths :=
  {| agent_paths :=
       [ {| path_agent_id := "agent_2"; path := [point 0 0 0] |};
         {| path_agent_id := "agent_3"; path := [] |} ] |}.

(** The service is busy at its first poll; the server asks twice to retry,
    after 2 s and after 0 s, then answers. *)
Definition answering_host : Host :=
  host 1 [retry ["2"]; retry ["0"]] wait_plan.

(** The server asks once to retry and names no delay, then answers. *)
Definition bare_retry_host : Host := host 0 [retry []] wait_plan.


(** The server asks for ever to retry after 1 s. *)
Definition patient_host : Host := host 0 [] (retry ["1"]).

(** The replies that the spec leaves open, for the examples. *)
Definition no_reply (self : Manager.t) (request : Request)
  : Response :=
  {| error_msg := ""; args := [] |}.

(** [Position(x=50.0, y=50.0, w=1.0)] *)
Definition goal_1 : Position :=
  {| px := 500; py := 500; pw := 10 |}.

End Sample.


(** ** Further notions used in the statements *)

Section MoreNotions.
Context {PF : PyFloat} {MT : ManagerTypes}.

(** The effects of the polling loop: a poll, or the sleep of 0.1 between
    two polls. *)
Definition poll_effect (ev : Effect) : Prop :=
  match ev with
  | Polled _ => True
  | Slept secs => secs = poll_period
  | _ => False
  end.

(** The effects of the first call and of the retry loop: the request
    [request] sent once more, or a sleep. *)
Definition retry_effect (request : Request) (ev : Effect) : Prop :=
  match ev with
  | Called sent _ => sent = request
  | Slept _ => True
  | _ => False
  end.

(** An effect of a call of [request_and_wait_for_response] for [request]. *)
Definition request_effect (request : Request) (ev : Effect) : Prop :=
  match ev with
  | Polled _ => True
  | Called sent _ => sent = request
  | Slept _ => True
  | _ => False
  end.

(** The entry is addressed to the executor. *)
Definition addressed_to (self : AgentTestExecutor.t) (p : AssignedPath)
  : bool :=
  String.eqb (path_agent_id p) (AgentTestExecutor.agent_id self).

(** The message that a broadcaster sends for the frame [child] under
    [parent] at the translation [v], stamped [now]: the rotation is the one
    of a new message. *)
Definition stamped_transform (parent child : string) (v : Vector3)
  (now : Time) : TransformStamped :=
  {| header := {| stamp := now; frame_id := parent |};
     child_frame_id := child;
     transform :=
       {| translation := v;
          rotation := {| qx := float_zero; qy := float_zero;
                         qz := float_zero; qw := float_one |} |} |}.

End MoreNotions.

(** ** More sample hosts and messages *)

Module MoreSamples.
#[local] Existing Instance Sample.floats.
#[local] Existing Instance Sample.manager_types.

(** The service is never ready. *)
Definition unready_host : Host :=
  {| service_ready := fun _ => false;
     server := fun _ _ => Sample.wait_plan;
     clock := fun n => {| sec := Z.of_nat n; nanosec := 0 |} |}.

(** The server asks to retry after 2 s, then after -1 s, then answers. *)
Definition backwards_host : Host :=
  Sample.host 0 [Sample.retry ["2"]; Sample.retry ["-1"]] Sample.wait_plan.

(** A message whose entry for agent_1 has no point, and one whose entry has
    a single point. *)
Definition empty_path_for_agent_1 : AgentPaths :=
  {| agent_paths :=
       [ {| path_agent_id := "agent_2"; path := [Sample.point 0 0 0] |};
         {| path_agent_id := "agent_1"; path := [] |} ] |}.

Definition one_point_for_agent_1 : AgentPaths :=
  {| agent_paths :=
       [ {| path_agent_id := "agent_1"; path := [Sample.point 10 20 30] |} ] |}.

Definition disconnect_request : Request :=
  AgentRequest_Request "AGENT_DISCONNECTED" "agent_1".

(** The world in which the call on the answering host is six steps after
    [World_init]: in the middle of its second sleep. *)
Definition mid_sleep : World :=
  {| polls := 2; calls := 1; clock_reads := 0;
     effects := [Polled false; Slept 1%Z; Polled true;
                 Called Sample.idle_request (Sample.retry ["2"]);
                 Slept 20%Z] |}.


(** The world in which [disconect_and_reconnect] returns on the answering
    host. *)
Definition reconnected : World :=
  {| polls := 3; calls := 4; clock_reads := 0;
     effects :=
       [Polled false; Slept 1%Z; Polled true;
        Called disconnect_request (Sample.retry ["2"]);
        Slept 20%Z;
        Called disconnect_request (Sample.retry ["0"]);
        Slept 0%Z;
        Called disconnect_request Sample.wait_plan;
        Polled true;
        Called Sample.idle_request Sample.wait_plan] |}.

End MoreSamples.

(** ** Facts about runs *)

Section RunFacts.
Context {PF : PyFloat}.
Variable h : Host.

Lemma run_Ret (R : Type) (fuel : nat) (r : R) (w : World) :
  run h (S fuel) (Ret r) w = (w, Some (Returned r)).
Proof. reflexivity. Qed.

Lemma run_Tau (R : Type) (fuel : nat) (t : itree hostE R) (w : World) :
  run h (S fuel) (Tau t) w = run h fuel t w.
Proof. reflexivity. Qed.

Lemma run_Vis (R X : Type) (fuel : nat) (e : hostE X) (k : X -> itree hostE R)
  (w : World) :
  run h (S fuel) (Vis e k) w =
  match handle h e w with
  | (w', inr x) => run h fuel (k x) w'
  | (w', inl exc) => (w', Some (Raised exc))
  end.
Proof. reflexivity. Qed.

Lemma run_S (R : Type) (fuel : nat) (t : itree hostE R) (w : World) :
  run h (S fuel) t w =
  match observe t with
  | RetF r => (w, Some (Returned r))
  | TauF t' => run h fuel t' w
  | VisF e k =>
      match handle h e w with
      | (w', inr x) => run h fuel (k x) w'
      | (w', inl exc) => (w', Some (Raised exc))
      end
  end.
Proof. reflexivity. Qed.

(** A run looks at its tree through [observe] only. *)
Lemma run_observe (R : Type) (fuel : nat) (t u : itree hostE R) (w : World) :
  observe t = observe u -> run h fuel t w = run h fuel u w.
Proof. intros E. destruct fuel; simpl; [reflexivity | now rewrite E]. Qed.

Lemma run_iter (I R : Type) (fuel : nat) (body : I -> itree hostE (I + R))
  (i : I) (w : World) :
  run h fuel (ITree.iter body i) w =
  run h fuel
    (lr <- body i ;;
     match lr with inl l => Tau (ITree.iter body l) | inr r => Ret r end) w.
Proof. apply run_observe. reflexivity. Qed.

Lemma run_bind_Ret (A B : Type) (fuel : nat) (r : A) (k : A -> itree hostE B)
  (w : World) :
  run h fuel (ITree.bind (Ret r) k) w = run h fuel (k r) w.
Proof. apply run_observe. reflexivity. Qed.

Lemma run_bind_Vis (A B X : Type) (fuel : nat) (e : hostE X)
  (ke : X -> itree hostE A) (k : A -> itree hostE B) (w : World) :
  run h fuel (ITree.bind (Vis e ke) k) w =
  run h fuel (Vis e (fun y => ITree.bind (ke y) k)) w.
Proof. apply run_observe. reflexivity. Qed.

Lemma run_bind_trigger (R X : Type) (fuel : nat) (e : hostE X)
  (k : X -> itree hostE R) (w : World) :
  run h (S fuel) (ITree.bind (ITree.trigger e) k) w =
  match handle h e w with
  | (w', inr x) => run h fuel (k x) w'
  | (w', inl exc) => (w', Some (Raised exc))
  end.
Proof.
  unfold ITree.trigger. rewrite run_bind_Vis, run_Vis.
  destruct (handle h e w) as [w' [exc | x]]; [reflexivity |].
  apply run_bind_Ret.
Qed.

Lemma run_raise (R : Type) (fuel : nat) (e : PyExc) (w : World) :
  run h (S fuel) (raise e : itree hostE R) w = (w, Some (Raised e)).
Proof. reflexivity. Qed.

Lemma run_bind_raise (A B : Type) (fuel : nat) (e : PyExc)
  (k : A -> itree hostE B) (w : World) :
  run h (S fuel) (ITree.bind (raise e) k) w = (w, Some (Raised e)).
Proof. unfold raise. rewrite run_bind_Vis. reflexivity. Qed.

(** One step of a sequence, by the head of its first part. *)
Lemma run_bind_step (A B : Type) (fuel : nat) (t : itree hostE A)
  (k : A -> itree hostE B) (w : World) :
  run h (S fuel) (ITree.bind t k) w =
  match observe t with
  | RetF r => run h (S fuel) (k r) w
  | TauF t' => run h fuel (ITree.bind t' k) w
  | VisF e ke =>
      match handle h e w with
      | (w', inr y) => run h fuel (ITree.bind (ke y) k) w'
      | (w', inl exc) => (w', Some (Raised exc))
      end
  end.
Proof.
  destruct (observe t) as [r | t' | X e ke] eqn:E.
  - apply run_observe. rewrite observe_bind, E. reflexivity.
  - transitivity (run h (S fuel) (Tau (ITree.bind t' k)) w); [| reflexivity].
    apply run_observe. rewrite observe_bind, E. reflexivity.
  - transitivity (run h (S fuel) (Vis e (fun y => ITree.bind (ke y) k)) w);
      [| reflexivity].
    apply run_observe. rewrite observe_bind, E. reflexivity.
Qed.

Lemma run_bind_bind (A B C : Type) (f : A -> itree hostE B)
  (k : B -> itree hostE C) (fuel : nat) :
  forall (t : itree hostE A) (w : World),
    run h fuel (ITree.bind (ITree.bind t f) k) w =
    run h fuel (ITree.bind t (fun x => ITree.bind (f x) k)) w.
Proof.
  induction fuel as [| fuel IH]; intros t w; [reflexivity |].
  destruct (observe t) as [r | t' | X e ke] eqn:E.
  - apply run_observe.
    rewrite (observe_bind (ITree.bind t f) k), (observe_bind t f), E.
    rewrite (observe_bind t (fun x => ITree.bind (f x) k)), E.
    rewrite (observe_bind (f r) k). reflexivity.
  - rewrite (run_bind_step fuel t), E.
    rewrite (run_bind_step fuel (ITree.bind t f)).
    rewrite (observe_bind t f), E. apply IH.
  - rewrite (run_bind_step fuel t), E.
    rewrite (run_bind_step fuel (ITree.bind t f)).
    rewrite (observe_bind t f), E. cbn.
    destruct (handle h e w) as [w' [exc | y]]; [reflexivity | apply IH].
Qed.

(** More fuel does not change a run that has ended. *)
Lemma run_mono (R : Type) (fuel : nat) :
  forall (t : itree hostE R) (w w' : World) (res : Result R) (fuel' : nat),
    run h fuel t w = (w', Some res) -> fuel <= fuel' ->
    run h fuel' t w = (w', Some res).
Proof.
  induction fuel as [| fuel IH]; intros t w w' res fuel' Hrun Hle.
  - discriminate.
  - destruct fuel' as [| fuel']; [lia |].
    simpl in *. destruct (observe t) as [r | t' | X e k].
    + exact Hrun.
    + apply IH; [exact Hrun | lia].
    + destruct (handle h e w) as [w1 [exc | x]]; [exact Hrun |].
      apply IH; [exact Hrun | lia].
Qed.

(** A method ends in one way at most. *)
Lemma finishes_unique (R : Type) (t : itree hostE R) (w w1 w2 : World)
  (r1 r2 : Result R) :
  finishes h t w w1 r1 -> finishes h t w w2 r2 -> w1 = w2 /\ r1 = r2.
Proof.
  intros [n1 H1] [n2 H2].
  apply run_mono with (fuel' := n1 + n2) in H1; [| lia].
  apply run_mono with (fuel' := n1 + n2) in H2; [| lia].
  rewrite H1 in H2. now inversion H2.
Qed.


(** Sequencing: the first part returns, then the rest runs. *)
Lemma run_bind_returned (A B : Type) (k : A -> itree hostE B) (n : nat) :
  forall (t : itree hostE A) (w w1 w2 : World) (x : A) (m : nat)
         (res : Result B),
    run h n t w = (w1, Some (Returned x)) ->
    run h m (k x) w1 = (w2, Some res) ->
    run h (n + m) (ITree.bind t k) w = (w2, Some res).
Proof.
  induction n as [| n IH]; intros t w w1 w2 x m res Ht Hk; [discriminate |].
  change (S n + m) with (S (n + m)). rewrite run_bind_step.
  simpl in Ht. destruct (observe t) as [r | t' | X e ke].
  - inversion Ht; subst. apply run_mono with (fuel := m); [exact Hk | lia].
  - eapply IH; eassumption.
  - destruct (handle h e w) as [w' [exc | y]]; [discriminate |].
    eapply IH; eassumption.
Qed.


(** Sequencing: an exception of the first part ends the whole. *)
Lemma run_bind_raised (A B : Type) (k : A -> itree hostE B) (n : nat) :
  forall (t : itree hostE A) (w w1 : World) (e : PyExc),
    run h n t w = (w1, Some (Raised e)) ->
    run h n (ITree.bind t k) w = (w1, Some (Raised e)).
Proof.
  induction n as [| n IH]; intros t w w1 e Ht; [discriminate |].
  rewrite run_bind_step.
  simpl in Ht. destruct (observe t) as [r | t' | X e' ke].
  - discriminate.
  - now apply IH.
  - destruct (handle h e' w) as [w' [exc | y]];
      [now inversion Ht | now apply IH].
Qed.

(** Sequencing, read backwards. *)
Lemma run_bind_inv (A B : Type) (k : A -> itree hostE B) (n : nat) :
  forall (t : itree hostE A) (w w2 : World) (res : Result B),
    run h n (ITree.bind t k) w = (w2, Some res) ->
    (exists w1 x, run h n t w = (w1, Some (Returned x)) /\
                  run h n (k x) w1 = (w2, Some res)) \/
    (exists e, res = Raised e /\ run h n t w = (w2, Some (Raised e))).
Proof.
  induction n as [| n IH]; intros t w w2 res Hrun; [discriminate |].
  rewrite run_bind_step in Hrun. rewrite (run_S _ t).
  destruct (observe t) as [r | t' | X e ke].
  - left. exists w, r. split; [reflexivity | exact Hrun].
  - destruct (IH _ _ _ _ Hrun) as [(w1 & x & Ht & Hk) | (e & -> & Ht)].
    + left. exists w1, x. split; [exact Ht |].
      apply run_mono with (fuel := n); [exact Hk | lia].
    + right. exists e. split; [reflexivity | exact Ht].
  - destruct (handle h e w) as [w' [exc | y]].
    + right. exists exc. inversion Hrun; subst. split; reflexivity.
    + destruct (IH _ _ _ _ Hrun) as [(w1 & x & Ht & Hk) | (e' & -> & Ht)].
      * left. exists w1, x. split; [exact Ht |].
        apply run_mono with (fuel := n); [exact Hk | lia].
      * right. exists e'. split; [reflexivity | exact Ht].
Qed.

Lemma finishes_bind (A B : Type) (t : itree hostE A) (k : A -> itree hostE B)
  (w w1 w2 : World) (x : A) (res : Result B) :
  finishes h t w w1 (Returned x) -> finishes h (k x) w1 w2 res ->
  finishes h (ITree.bind t k) w w2 res.
Proof.
  intros [n Hn] [m Hm]. exists (n + m). eapply run_bind_returned; eassumption.
Qed.

Lemma finishes_bind_raised (A B : Type) (t : itree hostE A)
  (k : A -> itree hostE B) (w w1 : World) (e : PyExc) :
  finishes h t w w1 (Raised e) -> finishes h (ITree.bind t k) w w1 (Raised e).
Proof. intros [n Hn]. exists n. now apply run_bind_raised. Qed.

Lemma diverges_bind (A B : Type) (t : itree hostE A) (k : A -> itree hostE B)
  (w : World) :
  diverges h t w -> diverges h (ITree.bind t k) w.
Proof.
  intros Hd n.
  destruct (run h n (ITree.bind t k) w) as [w2 [res |]] eqn:E; [| reflexivity].
  exfalso.
  destruct (run_bind_inv _ _ _ _ E) as [(w1 & x & Ht & _) | (e & _ & Ht)];
    specialize (Hd n); rewrite Ht in Hd; discriminate.
Qed.

Lemma diverges_bind_returned (A B : Type) (t : itree hostE A)
  (k : A -> itree hostE B) (w w1 : World) (x : A) :
  finishes h t w w1 (Returned x) -> diverges h (k x) w1 ->
  diverges h (ITree.bind t k) w.
Proof.
  intros Hf Hd n.
  destruct (run h n (ITree.bind t k) w) as [w2 [res |]] eqn:E; [| reflexivity].
  exfalso.
  destruct (run_bind_inv _ _ _ _ E) as [(w1' & x' & Ht & Hk) | (e & _ & Ht)].
  - assert (Hu : w1 = w1' /\ Returned x = Returned x')
      by (eapply finishes_unique; [exact Hf | exists n; exact Ht]).
    destruct Hu as [<- Hx]. inversion Hx; subst x'.
    specialize (Hd n). rewrite Hk in Hd. discriminate.
  - assert (Hu : w1 = w2 /\ Returned x = Raised e)
      by (eapply finishes_unique; [exact Hf | exists n; exact Ht]).
    destruct Hu as [_ Hx]. discriminate.
Qed.

Lemma flat_map_seq_from (A : Type) (f : nat -> list A) (c k : nat) :
  flat_map f (seq c k) = flat_map (fun j => f (c + j)) (seq 0 k).
Proof.
  assert (H : forall s, flat_map f (seq (c + s) k)
                        = flat_map (fun j => f (c + j)) (seq s k)).
  { induction k as [| k IH]; intros s; simpl; [reflexivity |].
    f_equal. rewrite <- Nat.add_succ_r. apply IH. }
  specialize (H 0). now rewrite Nat.add_0_r in H.
Qed.

End RunFacts.

(** ** The fixed-frame broadcaster and the goal publisher *)

Section Publishers.
Context {PF : PyFloat}.
Variable h : Host.

Import FixedFrameBroadcaster.

Lemma broadcast_timer_callback_once (self : FixedFrameBroadcaster.t)
  (w : World) :
  exists m,
    carries self m /\
    stamp (header m) = clock h (clock_reads w) /\
    finishes h (broadcast_timer_callback self) w
      {| polls := polls w; calls := calls w;
         clock_reads := S (clock_reads w);
         effects := effects w ++ [Sent m] |} (Returned tt).
Proof.
  eexists. split; [| split]; [| | exists 3; reflexivity].
  - repeat split.
  - reflexivity.
Qed.

Lemma timer_ticks_sends (self : FixedFrameBroadcaster.t) (n : nat) :
  forall w : World,
  exists (w' : World) (ms : list TransformStamped),
    finishes h (timer_ticks n self) w w' (Returned tt) /\
    effects w' = effects w ++ map Sent ms /\
    length ms = n /\
    Forall (carries self) ms /\
    polls w' = polls w /\ calls w' = calls w.
Proof.
  induction n as [| n IH]; intros w.
  - exists w, []. split; [exists 1; reflexivity |].
    simpl. rewrite app_nil_r. repeat split. constructor.
  - destruct (broadcast_timer_callback_once self w) as (m & Hm & _ & Hrun).
    destruct (IH {| polls := polls w; calls := calls w;
                    clock_reads := S (clock_reads w);
                    effects := effects w ++ [Sent m] |})
      as (w' & ms & Hrest & Heff & Hlen & Hall & Hp & Hc).
    exists w', (m :: ms). split; [| split; [| split; [| split] ] ].
    + simpl timer_ticks. eapply finishes_bind; [exact Hrun | exact Hrest].
    + rewrite Heff. simpl. now rewrite <- app_assoc.
    + simpl. now rewrite Hlen.
    + now constructor.
    + split; [exact Hp | exact Hc].
Qed.

(** C7: a broadcaster built from a parent frame id, a child frame id and a
    position sends, over any number [n] of timer ticks, exactly [n]
    transform messages, one per invocation of the callback and nothing
    else, each with the parent id as header frame id, the child id as child
    frame id and the x, y, z of the position as translation: the same
    values at every tick. *)
Theorem fixed_frame_broadcast_is_static (parent child : string)
  (position : Vector3) (freq : float64) (n : nat) (w : World) :
  let self := FixedFrameBroadcaster.init parent child position freq in
  exists (w' : World) (ms : list TransformStamped),
    finishes h (timer_ticks n self) w w' (Returned tt) /\
    effects w' = effects w ++ map Sent ms /\
    length ms = n /\
    Forall (fun m =>
      frame_id (header m) = parent /\
      child_frame_id m = child /\
      vx (translation (transform m)) = vx position /\
      vy (translation (transform m)) = vy position /\
      vz (translation (transform m)) = vz position) ms.
Proof.
  intros self.
  destruct (timer_ticks_sends self n w)
    as (w' & ms & Hrun & Heff & Hlen & Hall & _).
  exists w', ms. repeat split; assumption.
Qed.

(** C8: a call of [publish_goal] with a goal ends after one effect, the
    publication of that very goal on the topic goals; the world is otherwise
    as it was (nothing is kept back, nothing is sent again), and the method
    hands back no new state of the publisher. *)
Theorem publish_goal_sends_once (depth : nat) (goal : Position) (w : World) :
  finishes h (GoalPublisher.publish_goal (GoalPublisher.init depth) goal) w
    {| polls := polls w; calls := calls w; clock_reads := clock_reads w;
       effects := effects w ++ [Published "goals" goal] |}
    (Returned tt).
Proof. exists 2. reflexivity. Qed.

End Publishers.

(** ** The path callback of the agent executor *)

Section PathCallback.
Context {PF : PyFloat} {MT : ManagerTypes}.
Variable h : Host.

Import AgentTestExecutor.

Lemma finishes_log (line : string) (w : World) :
  finishes h (ITree.trigger (LogInfo line)) w (record (Logged line) w)
    (Returned tt).
Proof. exists 2. reflexivity. Qed.

Lemma scan_paths_first_match (self : AgentTestExecutor.t)
  (before : list AssignedPath) (p : AssignedPath) (after : list AssignedPath) :
  (forall q, In q before -> path_agent_id q <> AgentTestExecutor.agent_id self) ->
  path_agent_id p = AgentTestExecutor.agent_id self ->
  scan_paths self (before ++ p :: after) =
  ITree.trigger (LogInfo (path_published self p)).
Proof.
  intros Hbefore Hp. induction before as [| q before IH]; simpl.
  - rewrite Hp, String.eqb_refl. reflexivity.
  - destruct (String.eqb_spec (path_agent_id q) (AgentTestExecutor.agent_id self))
      as [Heq | _].
    + exfalso. apply (Hbefore q); [now left | exact Heq].
    + apply IH. intros q' Hq'. apply Hbefore. now right.
Qed.

Lemma scan_paths_no_match (self : AgentTestExecutor.t)
  (paths : list AssignedPath) :
  (forall q, In q paths -> path_agent_id q <> AgentTestExecutor.agent_id self) ->
  scan_paths self paths = ITree.trigger (LogInfo (no_path_published self)).
Proof.
  intros Hnone. induction paths as [| q paths IH]; simpl; [reflexivity |].
  destruct (String.eqb_spec (path_agent_id q) (AgentTestExecutor.agent_id self))
    as [Heq | _].
  - exfalso. apply (Hnone q); [now left | exact Heq].
  - apply IH. intros q' Hq'. apply Hnone. now right.
Qed.

Lemma path_published_not_no_path (self : AgentTestExecutor.t)
  (p : AssignedPath) :
  path_published self p <> no_path_published self.
Proof. unfold path_published, no_path_published. simpl. discriminate. Qed.

Lemma string_solution_relabel_y (g : Transform -> float64) (p : AssignedPath) :
  string_solution
    {| path_agent_id := path_agent_id p;
       path := map (set_point_y g) (path p) |} = string_solution p.
Proof.
  unfold string_solution. simpl. rewrite map_map. reflexivity.
Qed.

Lemma scan_paths_relabel_y (self : AgentTestExecutor.t)
  (g : Transform -> float64) (paths : list AssignedPath) :
  scan_paths self
    (map (fun ap => {| path_agent_id := path_agent_id ap;
                       path := map (set_point_y g) (path ap) |}) paths) =
  scan_paths self paths.
Proof.
  induction paths as [| q paths IH]; simpl; [reflexivity |].
  destruct (String.eqb (path_agent_id q) (AgentTestExecutor.agent_id self)).
  - unfold path_published. now rewrite string_solution_relabel_y.
  - exact IH.
Qed.

(** C5: when an entry of the message carries the id of the executor, the
    callback ends after logging one line, the path of the first such entry
    (the header with the id, then the points of that entry's path in order,
    each as the pair of its x and z, joined by [-->]); the entries after it
    are not looked at and the line is not the not-found line. When no entry
    carries the id, it ends after logging one line, the not-found line. *)
Theorem sol_callback_first_match_wins (self : AgentTestExecutor.t)
  (msg : AgentPaths) (w : World) :
  (forall before p after,
      agent_paths msg = before ++ p :: after ->
      (forall q, In q before ->
                 path_agent_id q <> AgentTestExecutor.agent_id self) ->
      path_agent_id p = AgentTestExecutor.agent_id self ->
      let line :=
        ("PATH PUBLISHED FOR " ++ AgentTestExecutor.agent_id self ++ ": "
         ++ String.concat "-->"
              (map (fun point =>
                      ("(" ++ float_repr (vx (translation point)) ++ ", "
                           ++ float_repr (vz (translation point)) ++ ")")%string)
                   (path p)))%string in
      finishes h (sol_callback self msg) w
        {| polls := polls w; calls := calls w; clock_reads := clock_reads w;
           effects := effects w ++ [Logged line] |}
        (Returned tt) /\
      line <> ("NO PATH PUBLISHED FOR "
               ++ AgentTestExecutor.agent_id self)%string) /\
  ((forall q, In q (agent_paths msg) ->
              path_agent_id q <> AgentTestExecutor.agent_id self) ->
   finishes h (sol_callback self msg) w
     {| polls := polls w; calls := calls w; clock_reads := clock_reads w;
        effects := effects w ++
          [Logged ("NO PATH PUBLISHED FOR "
                   ++ AgentTestExecutor.agent_id self)] |}
     (Returned tt)).
Proof.
  split.
  - intros before p after Hmsg Hbefore Hp line. split.
    + unfold sol_callback. rewrite Hmsg.
      rewrite (scan_paths_first_match self before p after Hbefore Hp).
      apply finishes_log.
    + intros Habs. subst line.
      change (path_published self p = no_path_published self) in Habs.
      now apply path_published_not_no_path in Habs.
  - intros Hnone. unfold sol_callback.
    rewrite (scan_paths_no_match self (agent_paths msg) Hnone).
    apply finishes_log.
Qed.

(** C10: the line logged for the matching path is the header followed by
    the points of the path in order, each printed as the pair of its
    translation x and translation z, joined by [-->]; the translation y of
    the points has no part in it: a message that differs in the y of its
    points only makes the callback the same program. *)
Theorem sol_callback_prints_x_and_z (self : AgentTestExecutor.t)
  (msg : AgentPaths) (w : World) :
  (forall before p after,
      agent_paths msg = before ++ p :: after ->
      (forall q, In q before ->
                 path_agent_id q <> AgentTestExecutor.agent_id self) ->
      path_agent_id p = AgentTestExecutor.agent_id self ->
      finishes h (sol_callback self msg) w
        {| polls := polls w; calls := calls w; clock_reads := clock_reads w;
           effects := effects w ++
             [Logged
                ("PATH PUBLISHED FOR " ++ AgentTestExecutor.agent_id self ++ ": "
                 ++ String.concat "-->"
                      (map (fun point =>
                              ("(" ++ float_repr (vx (translation point)) ++ ", "
                                   ++ float_repr (vz (translation point)) ++ ")")%string)
                           (path p)))] |}
        (Returned tt)) /\
  (forall g : Transform -> float64,
      sol_callback self (relabel_y g msg) = sol_callback self msg).
Proof.
  split.
  - intros before p after Hmsg Hbefore Hp.
    unfold sol_callback. rewrite Hmsg.
    rewrite (scan_paths_first_match self before p after Hbefore Hp).
    apply finishes_log.
  - intros g. unfold sol_callback, relabel_y. simpl.
    apply scan_paths_relabel_y.
Qed.

End PathCallback.

(** ** The Manager, as the spec describes it *)

Section ManagerFacts.
Context {PF : PyFloat} {MT : ManagerTypes}.
Variable other_response : Manager.t -> Request -> Response.

Import Manager.

Lemma existsb_eqb_In (id : string) (l : list string) :
  existsb (String.eqb id) l = true <-> In id l.
Proof.
  rewrite existsb_exists. split.
  - intros (x & Hx & Heq). apply String.eqb_eq in Heq. now subst.
  - intros Hin. exists id. split; [exact Hin | apply String.eqb_refl].
Qed.

Lemma filter_out_absent (id : string) (l : list string) :
  ~ In id (filter (fun a => negb (String.eqb a id)) l).
Proof.
  intros Hin. apply filter_In in Hin. destruct Hin as [_ Hneq].
  now rewrite String.eqb_refl in Hneq.
Qed.

Lemma filter_out_length (id : string) (l : list string) :
  length (filter (fun a => negb (String.eqb a id)) l)
    + count_occ string_dec l id = length l.
Proof.
  induction l as [| a l IH]; simpl; [reflexivity |].
  destruct (String.eqb_spec a id) as [-> | Hne]; simpl.
  - destruct (string_dec id id) as [_ | Hid]; [lia | contradiction].
  - destruct (string_dec a id) as [Heq | _]; [contradiction | lia].
Qed.

Lemma disconnect_is_not_idle : String.eqb AGENT_DISCONNECTED IDLE = false.
Proof.
  apply String.eqb_neq. intros Heq. apply request_types_distinct.
  now symmetry.
Qed.

(** C3: when the id of an agent is not among the unassigned agents of the
    Manager, after [agent_callback] has handled an IDLE request with that
    id the id occurs exactly once among them. *)
Theorem idle_enters_unassigned_agents_once (self : Manager.t) (id : string) :
  ~ In id (unassigned_agents self) ->
  count_occ string_dec
    (unassigned_agents
       (fst (agent_callback other_response self
               (AgentRequest_Request IDLE id)))) id = 1.
Proof.
  intros Hnew. unfold agent_callback. simpl.
  rewrite String.eqb_refl. simpl.
  destruct (existsb (String.eqb id) (unassigned_agents self)) eqn:E.
  - apply existsb_eqb_In in E. contradiction.
  - rewrite count_occ_app. simpl.
    destruct (string_dec id id) as [_ | Hid]; [| contradiction].
    apply (count_occ_not_In string_dec) in Hnew. lia.
Qed.

(** C4: when the id of an agent is among the unassigned agents of the
    Manager, after [agent_callback] has handled an AGENT_DISCONNECTED
    request with that id the id is no longer among them, and the collection
    is shorter by the occurrences of that id, so strictly shorter. *)
Theorem disconnect_leaves_unassigned_agents (self : Manager.t) (id : string) :
  In id (unassigned_agents self) ->
  let self' :=
    fst (agent_callback other_response self
           (AgentRequest_Request AGENT_DISCONNECTED id)) in
  ~ In id (unassigned_agents self') /\
  length (unassigned_agents self')
    + count_occ string_dec (unassigned_agents self) id
    = length (unassigned_agents self) /\
  length (unassigned_agents self') < length (unassigned_agents self).
Proof.
  intros Hin self'. subst self'. unfold agent_callback. simpl.
  rewrite disconnect_is_not_idle, String.eqb_refl. simpl.
  split; [apply filter_out_absent |].
  pose proof (filter_out_length id (unassigned_agents self)) as Hlen.
  apply (count_occ_In string_dec) in Hin.
  split; lia.
Qed.

(** C6: when the Manager has unassigned goals and no computed plan, the
    response of [agent_callback] to an IDLE request has WAIT_PLAN as its
    error_msg, and the unassigned goals are afterwards what they were (every
    goal is still there). *)
Theorem idle_without_plan_waits (self : Manager.t) (id : string) :
  unassigned_goals self <> [] ->
  plan self = None ->
  let result :=
    agent_callback other_response self (AgentRequest_Request IDLE id) in
  error_msg (snd result) = WAIT_PLAN /\
  unassigned_goals (fst result) = unassigned_goals self /\
  unassigned_goals (fst result) <> [].
Proof.
  intros Hgoals Hplan result. subst result. unfold agent_callback. simpl.
  rewrite String.eqb_refl. simpl. rewrite Hplan.
  destruct (unassigned_goals self) as [| g goals] eqn:E; [contradiction |].
  repeat split. discriminate.
Qed.

End ManagerFacts.

(** ** The request loop of the agent executor *)

Section RequestLoop.
Context {PF : PyFloat} {MT : ManagerTypes}.
Variable h : Host.
Variable self : AgentTestExecutor.t.
Variable agent_msg : string.

Import AgentTestExecutor.

(** *** The polling loop, step by step *)

Lemma run_wait_for_service (fuel : nat) (w : World) :
  run h (S fuel) wait_for_service w =
  if service_ready h (polls w) then
    match fuel with
    | O => (polled true w, None)
    | S _ => (polled true w, Some (Returned tt))
    end
  else
    match fuel with
    | O => (polled false w, None)
    | S O => (record (Slept poll_period) (polled false w), None)
    | S (S fuel') =>
        run h fuel' wait_for_service
          (record (Slept poll_period) (polled false w))
    end.
Proof.
  unfold wait_for_service at 1. rewrite run_iter, run_bind_bind.
  rewrite run_bind_trigger. cbn [handle].
  destruct (service_ready h (polls w)); cbn [negb].
  - rewrite run_bind_Ret. destruct fuel; reflexivity.
  - rewrite run_bind_bind. destruct fuel as [| fuel]; [reflexivity |].
    rewrite run_bind_trigger. cbn [handle].
    rewrite poll_period_accepted.
    rewrite run_bind_Ret.
    destruct fuel as [| fuel]; reflexivity.
Qed.

(** *** The retry loop, step by step *)

Lemma run_retry_loop (fuel : nat) (response : Response) (w : World) :
  run h (S fuel) (retry_loop self agent_msg response) w =
  if String.eqb (error_msg response) RETRY then
    match args response with
    | [] => (w, Some (Raised IndexError))
    | a :: _ =>
        match float a with
        | None => (w, Some (Raised FloatValueError))
        | Some d =>
            if sleep_accepts d then
              let w1 := record (Slept d) w in
              let response' := server h (calls w) (request self agent_msg) in
              let w2 := called (request self agent_msg) response' w1 in
              match fuel with
              | O => (w1, None)
              | S O => (w2, None)
              | S (S fuel') =>
                  run h fuel' (retry_loop self agent_msg response') w2
              end
            else (w, Some (Raised SleepError))
        end
    end
  else (w, Some (Returned tt)).
Proof.
  unfold retry_loop at 1. rewrite run_iter. unfold retry_body at 1.
  destruct (String.eqb (error_msg response) RETRY).
  - rewrite run_bind_bind. unfold first_arg.
    destruct (args response) as [| a rest].
    + apply run_bind_raise.
    + rewrite run_bind_Ret, run_bind_bind. unfold to_float.
      destruct (float a) as [d |].
      * rewrite run_bind_Ret, run_bind_bind, run_bind_trigger.
        cbn [handle]. destruct (sleep_accepts d); [| reflexivity].
        rewrite run_bind_bind.
        destruct fuel as [| fuel]; [reflexivity |].
        rewrite run_bind_trigger. cbn [handle].
        rewrite run_bind_Ret.
        destruct fuel as [| fuel]; reflexivity.
      * apply run_bind_raise.
  - rewrite run_bind_Ret. reflexivity.
Qed.

(** *** What the loops do *)

Lemma world_eq (p c r : nat) (e : list Effect) (p' c' r' : nat)
  (e' : list Effect) :
  p = p' -> c = c' -> r = r' -> e = e' ->
  {| polls := p; calls := c; clock_reads := r; effects := e |} =
  {| polls := p'; calls := c'; clock_reads := r'; effects := e' |}.
Proof. now intros -> -> -> ->. Qed.

(** The polling loop ends at the first poll that finds the service ready. *)
Lemma wait_for_service_finishes (n : nat) :
  forall w : World,
    (forall i, i < n -> service_ready h (polls w + i) = false) ->
    service_ready h (polls w + n) = true ->
    finishes h wait_for_service w
      {| polls := polls w + S n; calls := calls w;
         clock_reads := clock_reads w;
         effects := effects w
           ++ concat (repeat [Polled false; Slept poll_period] n)
           ++ [Polled true] |}
      (Returned tt).
Proof.
  induction n as [| n IH]; intros w Hbusy Hready.
  - exists 2. rewrite run_wait_for_service.
    rewrite Nat.add_0_r in Hready. rewrite Hready.
    unfold polled. simpl. repeat f_equal. lia.
  - assert (H0 : service_ready h (polls w) = false).
    { rewrite <- (Nat.add_0_r (polls w)). apply Hbusy. lia. }
    destruct (IH (record (Slept poll_period) (polled false w))) as [m Hm].
    + intros i Hi. simpl. rewrite <- Nat.add_succ_r. apply Hbusy. lia.
    + simpl. rewrite <- Nat.add_succ_r. exact Hready.
    + exists (S (S (S m))). rewrite run_wait_for_service, H0, Hm.
      simpl. f_equal. apply world_eq; try lia.
      rewrite <- !app_assoc. reflexivity.
Qed.

(** The polling loop raises nothing and makes no call. *)
Lemma wait_for_service_inv (fuel : nat) :
  forall (w w' : World) (res : Result unit),
    run h fuel wait_for_service w = (w', Some res) ->
    res = Returned tt /\ calls w' = calls w.
Proof.
  induction fuel as [fuel IH] using lt_wf_ind. intros w w' res Hrun.
  destruct fuel as [| fuel]; [discriminate |].
  rewrite run_wait_for_service in Hrun.
  destruct (service_ready h (polls w)).
  - destruct fuel; [discriminate |]. inversion Hrun; subst. now split.
  - destruct fuel as [| [| fuel] ]; try discriminate.
    apply IH in Hrun; [| lia]. exact Hrun.
Qed.

(** The retry loop, holding the response to the call [j], returns after
    the first response that is no RETRY, when the RETRY responses before it
    carry lengths that [sleep] accepts. *)
Lemma retry_loop_finishes (delays : nat -> float64) (k d : nat) :
  forall (j : nat) (w : World),
    k = j + d ->
    calls w = S j ->
    (forall i, j <= i < k ->
       error_msg (server h i (request self agent_msg)) = RETRY /\
       retry_delay (server h i (request self agent_msg)) = Some (delays i) /\
       sleep_accepts (delays i) = true) ->
    error_msg (server h k (request self agent_msg)) <> RETRY ->
    finishes h
      (retry_loop self agent_msg (server h j (request self agent_msg))) w
      {| polls := polls w; calls := S k; clock_reads := clock_reads w;
         effects := effects w
           ++ flat_map
                (fun i => [Slept (delays i);
                           Called (request self agent_msg)
                             (server h (S i) (request self agent_msg))])
                (seq j d) |}
      (Returned tt).
Proof.
  induction d as [| d IH]; intros j w Hk Hcalls Hretry Hlast.
  - rewrite Nat.add_0_r in Hk. subst k.
    exists 1. rewrite run_retry_loop.
    apply String.eqb_neq in Hlast. rewrite Hlast.
    f_equal. destruct w; simpl in *. apply world_eq; try easy.
    now rewrite app_nil_r.
  - destruct (Hretry j) as (Herr & Hdelay & Hsleep); [lia |].
    unfold retry_delay in Hdelay.
    destruct (args (server h j (request self agent_msg))) as [| a rest] eqn:Ha;
      [discriminate |].
    set (w2 := called (request self agent_msg)
                 (server h (S j) (request self agent_msg))
                 (record (Slept (delays j)) w)).
    destruct (IH (S j) w2) as [m Hm].
    + lia.
    + simpl. now rewrite Hcalls.
    + intros i Hi. apply Hretry. lia.
    + exact Hlast.
    + exists (S (S (S m))). rewrite run_retry_loop.
      apply String.eqb_eq in Herr. rewrite Herr, Ha, Hdelay, Hsleep.
      cbv zeta. rewrite Hcalls. fold w2. rewrite Hm.
      f_equal. subst w2. simpl. apply world_eq; try reflexivity.
      rewrite <- !app_assoc. reflexivity.
Qed.


(** The retry loop never ends while every response is a RETRY that carries
    a length [sleep] accepts. *)
Lemma retry_loop_diverges (fuel : nat) :
  forall (j : nat) (w : World),
    calls w = S j ->
    (forall i, j <= i ->
       error_msg (server h i (request self agent_msg)) = RETRY /\
       exists d, retry_delay (server h i (request self agent_msg)) = Some d /\
                 sleep_accepts d = true) ->
    snd (run h fuel
           (retry_loop self agent_msg (server h j (request self agent_msg))) w)
    = None.
Proof.
  induction fuel as [fuel IH] using lt_wf_ind. intros j w Hcalls Hretry.
  destruct fuel as [| fuel]; [reflexivity |].
  rewrite run_retry_loop.
  destruct (Hretry j) as (Herr & d & Hdelay & Hsleep); [lia |].
  apply String.eqb_eq in Herr. rewrite Herr.
  unfold retry_delay in Hdelay.
  destruct (args (server h j (request self agent_msg))) as [| a rest];
    [discriminate |].
  rewrite Hdelay, Hsleep. cbv zeta.
  destruct fuel as [| [| fuel] ]; try reflexivity.
  rewrite Hcalls. apply IH; [lia | simpl; now rewrite Hcalls |].
  intros i Hi. apply Hretry. lia.
Qed.


(** When every RETRY response carries a first argument that [float] reads,
    the retry loop raises neither IndexError nor the ValueError of
    [float]. *)
Lemma retry_loop_raised (fuel : nat) :
  forall (j : nat) (w w' : World) (e : PyExc),
    calls w = S j ->
    (forall i, j <= i ->
       error_msg (server h i (request self agent_msg)) = RETRY ->
       retry_delay (server h i (request self agent_msg)) <> None) ->
    run h fuel
      (retry_loop self agent_msg (server h j (request self agent_msg))) w
      = (w', Some (Raised e)) ->
    e = SleepError.
Proof.
  induction fuel as [fuel IH] using lt_wf_ind. intros j w w' e Hcalls Hargs Hrun.
  destruct fuel as [| fuel]; [discriminate |].
  rewrite run_retry_loop in Hrun.
  destruct (String.eqb_spec
              (error_msg (server h j (request self agent_msg))) RETRY)
    as [Herr | Herr]; [| discriminate].
  assert (Hdelay := Hargs j (Nat.le_refl j) Herr). unfold retry_delay in Hdelay.
  destruct (args (server h j (request self agent_msg))) as [| a rest];
    [contradiction |].
  destruct (float a) as [d |]; [| contradiction].
  destruct (sleep_accepts d); [| now inversion Hrun].
  cbv zeta in Hrun. destruct fuel as [| [| fuel] ]; try discriminate.
  rewrite Hcalls in Hrun.
  apply IH in Hrun; [exact Hrun | lia | simpl; now rewrite Hcalls |].
  intros i Hi. apply Hargs. lia.
Qed.

(** A RETRY response without a readable first argument, reached through
    RETRY responses that carry accepted lengths, ends the loop with the
    exception of the conversion. *)
Lemma retry_loop_conversion_fails (delays : nat -> float64) (k d : nat) :
  forall (j : nat) (w : World),
    k = j + d ->
    calls w = S j ->
    (forall i, j <= i < k ->
       error_msg (server h i (request self agent_msg)) = RETRY /\
       retry_delay (server h i (request self agent_msg)) = Some (delays i) /\
       sleep_accepts (delays i) = true) ->
    error_msg (server h k (request self agent_msg)) = RETRY ->
    retry_delay (server h k (request self agent_msg)) = None ->
    finishes h
      (retry_loop self agent_msg (server h j (request self agent_msg))) w
      {| polls := polls w; calls := S k; clock_reads := clock_reads w;
         effects := effects w
           ++ flat_map
                (fun i => [Slept (delays i);
                           Called (request self agent_msg)
                             (server h (S i) (request self agent_msg))])
                (seq j d) |}
      (Raised (conversion_error (server h k (request self agent_msg)))).
Proof.
  induction d as [| d IH]; intros j w Hk Hcalls Hretry Hlast Hbad.
  - rewrite Nat.add_0_r in Hk. subst k.
    exists 1. rewrite run_retry_loop.
    apply String.eqb_eq in Hlast. rewrite Hlast.
    unfold retry_delay in Hbad. unfold conversion_error.
    assert (Hw : w = {| polls := polls w; calls := S j;
                        clock_reads := clock_reads w;
                        effects := effects w ++ flat_map
                          (fun i => [Slept (delays i);
                                     Called (request self agent_msg)
                                       (server h (S i) (request self agent_msg))])
                          (seq j 0) |}).
    { destruct w; simpl in *. apply world_eq; try easy.
      now rewrite app_nil_r. }
    rewrite <- Hw.
    destruct (args (server h j (request self agent_msg))) as [| a rest];
      [reflexivity |].
    now rewrite Hbad.
  - destruct (Hretry j) as (Herr & Hdelay & Hsleep); [lia |].
    unfold retry_delay in Hdelay.
    destruct (args (server h j (request self agent_msg))) as [| a rest] eqn:Ha;
      [discriminate |].
    set (w2 := called (request self agent_msg)
                 (server h (S j) (request self agent_msg))
                 (record (Slept (delays j)) w)).
    destruct (IH (S j) w2) as [m Hm].
    + lia.
    + simpl. now rewrite Hcalls.
    + intros i Hi. apply Hretry. lia.
    + exact Hlast.
    + exact Hbad.
    + exists (S (S (S m))). rewrite run_retry_loop.
      apply String.eqb_eq in Herr. rewrite Herr, Ha, Hdelay, Hsleep.
      cbv zeta. rewrite Hcalls. fold w2. rewrite Hm.
      f_equal. subst w2. simpl. apply world_eq; try reflexivity.
      rewrite <- !app_assoc. reflexivity.
Qed.

(** A RETRY response without a readable first argument, reached through
    RETRY responses of any kind, is never passed: the loop raises there or
    before. *)
Lemma retry_loop_fails (k d : nat) :
  forall (j : nat) (w : World),
    k = j + d ->
    calls w = S j ->
    (forall i, j <= i <= k ->
       error_msg (server h i (request self agent_msg)) = RETRY) ->
    retry_delay (server h k (request self agent_msg)) = None ->
    exists w' e,
      finishes h
        (retry_loop self agent_msg (server h j (request self agent_msg))) w
        w' (Raised e) /\
      calls w' <= S k.
Proof.
  induction d as [| d IH]; intros j w Hk Hcalls Hretry Hbad.
  - rewrite Nat.add_0_r in Hk. subst k.
    assert (Herr := Hretry j (conj (Nat.le_refl j) (Nat.le_refl j))).
    apply String.eqb_eq in Herr. unfold retry_delay in Hbad.
    exists w. destruct (args (server h j (request self agent_msg)))
      as [| a rest] eqn:Ha.
    + exists IndexError. split; [| lia].
      exists 1. now rewrite run_retry_loop, Herr, Ha.
    + exists FloatValueError. split; [| lia].
      exists 1. now rewrite run_retry_loop, Herr, Ha, Hbad.
  - assert (Herr : error_msg (server h j (request self agent_msg)) = RETRY)
      by (apply Hretry; lia).
    apply String.eqb_eq in Herr.
    destruct (args (server h j (request self agent_msg))) as [| a rest] eqn:Ha.
    { exists w, IndexError. split; [| lia].
      exists 1. now rewrite run_retry_loop, Herr, Ha. }
    destruct (float a) as [s |] eqn:Hs.
    2: { exists w, FloatValueError. split; [| lia].
         exists 1. now rewrite run_retry_loop, Herr, Ha, Hs. }
    destruct (sleep_accepts s) eqn:Hsleep.
    2: { exists w, SleepError. split; [| lia].
         exists 1. now rewrite run_retry_loop, Herr, Ha, Hs, Hsleep. }
    set (w2 := called (request self agent_msg)
                 (server h (S j) (request self agent_msg))
                 (record (Slept s) w)).
    destruct (IH (S j) w2) as (w' & e & [m Hm] & Hle).
    + lia.
    + simpl. now rewrite Hcalls.
    + intros i Hi. apply Hretry. lia.
    + exact Hbad.
    + exists w', e. split; [| exact Hle].
      exists (S (S (S m))). rewrite run_retry_loop, Herr, Ha, Hs, Hsleep.
      cbv zeta. rewrite Hcalls. exact Hm.
Qed.

(** *** The whole method *)

Lemma run_call (R : Type) (k : Response -> itree hostE R) (fuel : nat)
  (w : World) :
  run h (S fuel) (ITree.bind (ITree.trigger (Call (request self agent_msg))) k) w
  = run h fuel (k (server h (calls w) (request self agent_msg)))
      (called (request self agent_msg)
         (server h (calls w) (request self agent_msg)) w).
Proof. now rewrite run_bind_trigger. Qed.

(** The method is its polling loop, the first call and the retry loop. *)
Lemma method_finishes (n : nat) (w w1 : World) (res : Result unit) :
  (forall i, i < n -> service_ready h (polls w + i) = false) ->
  service_ready h (polls w + n) = true ->
  finishes h
    (retry_loop self agent_msg (server h (calls w) (request self agent_msg)))
    {| polls := polls w + S n; calls := S (calls w);
       clock_reads := clock_reads w;
       effects := effects w
         ++ concat (repeat [Polled false; Slept poll_period] n)
         ++ [Polled true]
         ++ [Called (request self agent_msg)
               (server h (calls w) (request self agent_msg))] |}
    w1 res ->
  finishes h (request_and_wait_for_response self agent_msg) w w1 res.
Proof.
  intros Hbusy Hready [m Hm].
  unfold request_and_wait_for_response.
  eapply finishes_bind.
  - apply wait_for_service_finishes; eassumption.
  - exists (S m). rewrite run_call. simpl calls.
    unfold called. simpl. rewrite <- !app_assoc. exact Hm.
Qed.

Lemma method_inv (fuel : nat) (w w' : World) (res : Result unit) :
  run h fuel (request_and_wait_for_response self agent_msg) w
    = (w', Some res) ->
  exists fuel' w1,
    calls w1 = S (calls w) /\
    run h fuel'
      (retry_loop self agent_msg
         (server h (calls w) (request self agent_msg))) w1
    = (w', Some res).
Proof.
  unfold request_and_wait_for_response. intros Hrun.
  apply run_bind_inv in Hrun.
  destruct Hrun as [(w0 & [] & Hwait & Hrest) | (e & _ & Hwait)].
  - apply wait_for_service_inv in Hwait. destruct Hwait as [_ Hcalls].
    destruct fuel as [| fuel]; [discriminate |].
    rewrite run_call in Hrest. rewrite Hcalls in Hrest.
    eexists fuel, _. split; [| exact Hrest]. simpl. now rewrite Hcalls.
  - apply wait_for_service_inv in Hwait. destruct Hwait as [Habs _].
    discriminate.
Qed.

End RequestLoop.

(** ** The request method of the agent executor *)

Section RequestMethod.
Context {PF : PyFloat} {MT : ManagerTypes}.
Variable h : Host.
Variable self : AgentTestExecutor.t.
Variable agent_msg : string.

Import AgentTestExecutor.

(** The method with relative counts: the service is ready at the poll [n]
    after [w], the response [k] after [w] is the first that is no RETRY. *)
Lemma method_returns (delays : nat -> float64) (n k : nat) (w : World) :
  (forall i, i < n -> service_ready h (polls w + i) = false) ->
  service_ready h (polls w + n) = true ->
  (forall j, j < k ->
     error_msg (server h (calls w + j) (request self agent_msg)) = RETRY /\
     retry_delay (server h (calls w + j) (request self agent_msg))
       = Some (delays j) /\
     sleep_accepts (delays j) = true) ->
  error_msg (server h (calls w + k) (request self agent_msg)) <> RETRY ->
  finishes h (request_and_wait_for_response self agent_msg) w
    {| polls := polls w + S n; calls := calls w + S k;
       clock_reads := clock_reads w;
       effects := effects w
         ++ concat (repeat [Polled false; Slept poll_period] n)
         ++ [Polled true]
         ++ [Called (request self agent_msg)
               (server h (calls w) (request self agent_msg))]
         ++ flat_map
              (fun j => [Slept (delays j);
                         Called (request self agent_msg)
                           (server h (calls w + S j)
                              (request self agent_msg))])
              (seq 0 k) |}
    (Returned tt).
Proof.
  intros Hbusy Hready Hretry Hlast.
  eapply method_finishes; [exact Hbusy | exact Hready |].
  destruct (@retry_loop_finishes _ _ h self agent_msg
              (fun i => delays (i - calls w)) (calls w + k) k (calls w)
              {| polls := polls w + S n; calls := S (calls w);
                 clock_reads := clock_reads w;
                 effects := effects w
                   ++ concat (repeat [Polled false; Slept poll_period] n)
                   ++ [Polled true]
                   ++ [Called (request self agent_msg)
                         (server h (calls w) (request self agent_msg))] |}
              eq_refl eq_refl) as [m Hm].
  - intros i Hi. replace i with (calls w + (i - calls w)) at 1 2 by lia.
    apply Hretry. lia.
  - exact Hlast.
  - exists m. rewrite Hm. cbn [polls calls clock_reads effects].
    f_equal. apply world_eq; try lia.
    rewrite <- !app_assoc. do 4 f_equal.
    rewrite flat_map_seq_from. apply flat_map_ext. intros j.
    rewrite Nat.add_succ_r.
    replace (calls w + j - calls w) with j by lia. reflexivity.
Qed.

Lemma method_conversion_fails (delays : nat -> float64) (n k : nat)
  (w : World) :
  (forall i, i < n -> service_ready h (polls w + i) = false) ->
  service_ready h (polls w + n) = true ->
  (forall j, j < k ->
     error_msg (server h (calls w + j) (request self agent_msg)) = RETRY /\
     retry_delay (server h (calls w + j) (request self agent_msg))
       = Some (delays j) /\
     sleep_accepts (delays j) = true) ->
  error_msg (server h (calls w + k) (request self agent_msg)) = RETRY ->
  retry_delay (server h (calls w + k) (request self agent_msg)) = None ->
  exists w',
    finishes h (request_and_wait_for_response self agent_msg) w w'
      (Raised (conversion_error
                 (server h (calls w + k) (request self agent_msg)))) /\
    calls w' = calls w + S k.
Proof.
  intros Hbusy Hready Hretry Hlast Hbad.
  eexists. split.
  - eapply method_finishes; [exact Hbusy | exact Hready |].
    apply (@retry_loop_conversion_fails _ _ h self agent_msg
             (fun i => delays (i - calls w)) (calls w + k) k (calls w));
      [reflexivity | reflexivity | | exact Hlast | exact Hbad].
    intros i Hi. replace i with (calls w + (i - calls w)) at 1 2 by lia.
    apply Hretry. lia.
  - simpl. lia.
Qed.

Lemma method_fails (n k : nat) (w : World) :
  (forall i, i < n -> service_ready h (polls w + i) = false) ->
  service_ready h (polls w + n) = true ->
  (forall j, j <= k ->
     error_msg (server h (calls w + j) (request self agent_msg)) = RETRY) ->
  retry_delay (server h (calls w + k) (request self agent_msg)) = None ->
  exists w' e,
    finishes h (request_and_wait_for_response self agent_msg) w w' (Raised e).
Proof.
  intros Hbusy Hready Hretry Hbad.
  destruct (@retry_loop_fails _ _ h self agent_msg (calls w + k) k (calls w)
              {| polls := polls w + S n; calls := S (calls w);
                 clock_reads := clock_reads w;
                 effects := effects w
                   ++ concat (repeat [Polled false; Slept poll_period] n)
                   ++ [Polled true]
                   ++ [Called (request self agent_msg)
                         (server h (calls w) (request self agent_msg))] |}
              eq_refl eq_refl) as (w' & e & Hfin & _).
  - intros i Hi. replace i with (calls w + (i - calls w)) by lia.
    apply Hretry. lia.
  - exact Hbad.
  - exists w', e. eapply method_finishes; [exact Hbusy | exact Hready |].
    exact Hfin.
Qed.


Lemma method_diverges (w : World) :
  (forall j,
     error_msg (server h (calls w + j) (request self agent_msg)) = RETRY /\
     exists d,
       retry_delay (server h (calls w + j) (request self agent_msg)) = Some d /\
       sleep_accepts d = true) ->
  diverges h (request_and_wait_for_response self agent_msg) w.
Proof.
  intros Hretry fuel.
  destruct (run h fuel (request_and_wait_for_response self agent_msg) w)
    as [w' [res |] ] eqn:Hrun; [| reflexivity].
  exfalso. apply method_inv in Hrun.
  destruct Hrun as (fuel' & w1 & Hcalls & Hloop).
  pose proof (@retry_loop_diverges _ _ h self agent_msg fuel' (calls w) w1
                Hcalls) as Hd.
  rewrite Hloop in Hd. simpl in Hd.
  assert (Some res = None) as Habs; [| discriminate].
  apply Hd. intros i Hi.
  replace i with (calls w + (i - calls w)) by lia. apply Hretry.
Qed.


Lemma method_raised (fuel : nat) (w w' : World) (e : PyExc) :
  (forall j,
     error_msg (server h (calls w + j) (request self agent_msg)) = RETRY ->
     retry_delay (server h (calls w + j) (request self agent_msg)) <> None) ->
  run h fuel (request_and_wait_for_response self agent_msg) w
    = (w', Some (Raised e)) ->
  e = SleepError.
Proof.
  intros Hargs Hrun. apply method_inv in Hrun.
  destruct Hrun as (fuel' & w1 & Hcalls & Hloop).
  apply retry_loop_raised in Hloop; [exact Hloop | exact Hcalls |].
  intros i Hi. replace i with (calls w + (i - calls w)) by lia. apply Hargs.
Qed.

(** C1 (amended): the call polls the service, sleeping 0.1 after each poll
    that finds it not ready, until a poll finds it ready; it then sends one
    request with the given [agent_msg] and the [agent_id] of the executor;
    for each RETRY response whose first argument [float] reads as a length
    that [sleep] accepts it sleeps that length and sends the same request
    again; it returns after the first response that is no RETRY, having done
    nothing else. *)
Theorem request_and_wait_retries_until_answered (delays : nat -> float64)
  (n k : nat) (w : World) :
  let request :=
    AgentRequest_Request agent_msg (AgentTestExecutor.agent_id self) in
  let response := fun j => server h (calls w + j) request in
  (forall i, i < n -> service_ready h (polls w + i) = false) ->
  service_ready h (polls w + n) = true ->
  (forall j, j < k ->
     error_msg (response j) = RETRY /\
     retry_delay (response j) = Some (delays j) /\
     sleep_accepts (delays j) = true) ->
  error_msg (response k) <> RETRY ->
  finishes h (request_and_wait_for_response self agent_msg) w
    {| polls := polls w + S n; calls := calls w + S k;
       clock_reads := clock_reads w;
       effects := effects w
         ++ concat (repeat [Polled false; Slept poll_period] n)
         ++ [Polled true]
         ++ [Called request (response 0)]
         ++ flat_map
              (fun j => [Slept (delays j); Called request (response (S j))])
              (seq 0 k) |}
    (Returned tt).
Proof.
  intros request response Hbusy Hready Hretry Hlast.
  subst response. cbv beta. rewrite Nat.add_0_r.
  apply method_returns; assumption.
Qed.


(** C9: the first argument of a RETRY response is indexed and converted
    without a guard. When every RETRY response carries arguments whose
    first one [float] reads, no run of the call raises the IndexError of
    the indexing or the ValueError of the conversion. A RETRY response
    without such an argument, once the service is ready and the responses
    up to it are RETRY, makes the call end in an exception; when the
    responses before it carry accepted lengths that exception is the one of
    its indexing or conversion, raised after the call it answers. *)
Theorem retry_arguments_are_not_guarded (w : World) :
  let request :=
    AgentRequest_Request agent_msg (AgentTestExecutor.agent_id self) in
  let response := fun j => server h (calls w + j) request in
  ((forall j,
      error_msg (response j) = RETRY -> retry_delay (response j) <> None) ->
   forall fuel w' e,
     run h fuel (request_and_wait_for_response self agent_msg) w
       = (w', Some (Raised e)) ->
     e <> IndexError /\ e <> FloatValueError) /\
  (forall n k,
     (forall i, i < n -> service_ready h (polls w + i) = false) ->
     service_ready h (polls w + n) = true ->
     (forall j, j <= k -> error_msg (response j) = RETRY) ->
     retry_delay (response k) = None ->
     exists w' e,
       finishes h (request_and_wait_for_response self agent_msg) w w'
         (Raised e)) /\
  (forall (delays : nat -> float64) n k,
     (forall i, i < n -> service_ready h (polls w + i) = false) ->
     service_ready h (polls w + n) = true ->
     (forall j, j < k ->
        error_msg (response j) = RETRY /\
        retry_delay (response j) = Some (delays j) /\
        sleep_accepts (delays j) = true) ->
     error_msg (response k) = RETRY ->
     retry_delay (response k) = None ->
     exists w',
       finishes h (request_and_wait_for_response self agent_msg) w w'
         (Raised (conversion_error (response k))) /\
       calls w' = calls w + S k).
Proof.
  intros request response. split; [| split].
  - intros Hargs fuel w' e Hrun.
    apply method_raised in Hrun; [| exact Hargs].
    subst e. split; discriminate.
  - intros n k Hbusy Hready Hretry Hbad.
    apply method_fails with (n := n) (k := k); assumption.
  - intros delays n k Hbusy Hready Hretry Hlast Hbad.
    apply method_conversion_fails with (delays := delays) (n := n); assumption.
Qed.

End RequestMethod.

(** ** Further facts about runs *)

Section MoreRunFacts.
Context {PF : PyFloat}.
Variable h : Host.

(** Sequencing, when the first part runs out of fuel. *)
Lemma run_bind_unfinished (A B : Type) (k : A -> itree hostE B) (n : nat) :
  forall (t : itree hostE A) (w w' : World),
    run h n t w = (w', None) ->
    run h n (ITree.bind t k) w = (w', None).
Proof.
  induction n as [| n IH]; intros t w w' Ht.
  - simpl in *. now inversion Ht.
  - rewrite run_bind_step. rewrite run_S in Ht.
    destruct (observe t) as [r | t' | X e ke]; [discriminate | now apply IH |].
    destruct (handle h e w) as [w1 [exc | y] ]; [discriminate | now apply IH].
Qed.

(** Sequencing, read backwards, whatever the outcome. *)
Lemma run_bind_inv_any (A B : Type) (k : A -> itree hostE B) (n : nat) :
  forall (t : itree hostE A) (w w' : World) (o : option (Result B)),
    run h n (ITree.bind t k) w = (w', o) ->
    (o = None /\ run h n t w = (w', None)) \/
    (exists e, o = Some (Raised e) /\ run h n t w = (w', Some (Raised e))) \/
    (exists w1 x m,
        run h n t w = (w1, Some (Returned x)) /\ m <= n /\
        run h m (k x) w1 = (w', o)).
Proof.
  induction n as [| n IH]; intros t w w' o Hrun.
  - left. simpl in *. inversion Hrun; subst. now split.
  - rewrite run_bind_step in Hrun. rewrite (run_S h n t).
    destruct (observe t) as [r | t' | X e ke].
    + right. right. exists w, r, (S n). repeat split; [lia | exact Hrun].
    + destruct (IH _ _ _ _ Hrun)
        as [ [-> Ht] | [ (e & -> & Ht) | (w1 & x & m & Ht & Hm & Hk) ] ].
      * left. now split.
      * right. left. exists e. now split.
      * right. right. exists w1, x, m. repeat split; [exact Ht | lia | exact Hk].
    + destruct (handle h e w) as [w0 [exc | y] ].
      * right. left. exists exc. inversion Hrun; subst. now split.
      * destruct (IH _ _ _ _ Hrun)
          as [ [-> Ht] | [ (e' & -> & Ht) | (w1 & x & m & Ht & Hm & Hk) ] ].
        -- left. now split.
        -- right. left. exists e'. now split.
        -- right. right. exists w1, x, m.
           repeat split; [exact Ht | lia | exact Hk].
Qed.

Lemma string_length_append (a b : string) :
  String.length (a ++ b) = String.length a + String.length b.
Proof. induction a as [| c a IH]; simpl; [reflexivity | now rewrite IH]. Qed.

(** Two strings with the same suffix appended are equal when the results
    are. *)
Lemma append_inv_suffix (s : string) :
  forall a b : string, (a ++ s)%string = (b ++ s)%string -> a = b.
Proof.
  induction a as [| c a IH]; intros b Heq; destruct b as [| c' b]; simpl in *.
  - reflexivity.
  - exfalso. apply (f_equal String.length) in Heq. simpl in Heq.
    rewrite string_length_append in Heq. lia.
  - exfalso. apply (f_equal String.length) in Heq. simpl in Heq.
    rewrite string_length_append in Heq. lia.
  - inversion Heq; subst. f_equal. now apply IH.
Qed.

End MoreRunFacts.

(** ** More on the request method of the agent executor *)

Section MoreRequestLoop.
Context {PF : PyFloat} {MT : ManagerTypes}.
Variable h : Host.
Variable self : AgentTestExecutor.t.
Variable agent_msg : string.

Import AgentTestExecutor.

(** The polling loop polls and sleeps, and does nothing else. *)
Lemma wait_for_service_effects (fuel : nat) :
  forall (w w' : World) (o : option (Result unit)),
    run h fuel wait_for_service w = (w', o) ->
    exists ps,
      effects w' = effects w ++ ps /\ Forall poll_effect ps /\
      calls w' = calls w /\ clock_reads w' = clock_reads w.
Proof.
  induction fuel as [fuel IH] using lt_wf_ind. intros w w' o Hrun.
  destruct fuel as [| fuel].
  - inversion Hrun; subst. exists []. rewrite app_nil_r. now repeat split.
  - rewrite run_wait_for_service in Hrun.
    destruct (service_ready h (polls w)).
    + exists [Polled true].
      destruct fuel; inversion Hrun; subst; simpl;
        (repeat split; [repeat constructor]).
    + destruct fuel as [| [| fuel] ].
      * inversion Hrun; subst. exists [Polled false]. simpl.
        repeat split. repeat constructor.
      * inversion Hrun; subst. exists [Polled false; Slept poll_period].
        simpl. rewrite <- app_assoc. repeat split. repeat constructor.
      * apply IH in Hrun; [| lia].
        destruct Hrun as (ps & Heff & Hps & Hcalls & Hclock).
        exists ([Polled false; Slept poll_period] ++ ps).
        simpl in *. rewrite <- !app_assoc in Heff. simpl in Heff.
        repeat split; [exact Heff | | exact Hcalls | exact Hclock].
        repeat constructor. exact Hps.
Qed.

(** When the polling loop ends, it has polled up to the first poll that
    found the service ready. *)
Lemma wait_for_service_ready (fuel : nat) :
  forall (w w' : World) (res : Result unit),
    run h fuel wait_for_service w = (w', Some res) ->
    exists n,
      (forall i, i < n -> service_ready h (polls w + i) = false) /\
      service_ready h (polls w + n) = true /\
      polls w' = polls w + S n.
Proof.
  induction fuel as [fuel IH] using lt_wf_ind. intros w w' res Hrun.
  destruct fuel as [| fuel]; [discriminate |].
  rewrite run_wait_for_service in Hrun.
  destruct (service_ready h (polls w)) eqn:Hready.
  - destruct fuel; [discriminate |]. inversion Hrun; subst.
    exists 0. rewrite Nat.add_0_r. repeat split; [lia | exact Hready |].
    simpl. lia.
  - destruct fuel as [| [| fuel] ]; try discriminate.
    apply IH in Hrun; [| lia].
    destruct Hrun as (n & Hbusy & Hn & Hpolls). simpl in *.
    exists (S n). repeat split.
    + intros i Hi. destruct i as [| i].
      * now rewrite Nat.add_0_r.
      * rewrite Nat.add_succ_r. apply Hbusy. lia.
    + now rewrite Nat.add_succ_r.
    + rewrite Hpolls. lia.
Qed.

(** While no poll finds the service ready, the polling loop goes on. *)
Lemma wait_for_service_blocks (fuel : nat) :
  forall w : World,
    (forall i, service_ready h (polls w + i) = false) ->
    snd (run h fuel wait_for_service w) = None.
Proof.
  induction fuel as [fuel IH] using lt_wf_ind. intros w Hbusy.
  destruct fuel as [| fuel]; [reflexivity |].
  rewrite run_wait_for_service.
  assert (H0 : service_ready h (polls w) = false).
  { rewrite <- (Nat.add_0_r (polls w)). apply Hbusy. }
  rewrite H0. destruct fuel as [| [| fuel] ]; try reflexivity.
  apply IH; [lia |]. intros i. simpl. rewrite <- Nat.add_succ_r. apply Hbusy.
Qed.

(** The retry loop sleeps and sends its request, and does nothing else. *)
Lemma retry_loop_effects (fuel : nat) :
  forall (response : Response) (w w' : World) (o : option (Result unit)),
    run h fuel (retry_loop self agent_msg response) w = (w', o) ->
    exists cs,
      effects w' = effects w ++ cs /\
      Forall (retry_effect (request self agent_msg)) cs /\
      polls w' = polls w /\ clock_reads w' = clock_reads w.
Proof.
  induction fuel as [fuel IH] using lt_wf_ind. intros response w w' o Hrun.
  destruct fuel as [| fuel].
  - inversion Hrun; subst. exists []. rewrite app_nil_r. now repeat split.
  - rewrite run_retry_loop in Hrun.
    assert (Hstay : forall o', (w, o') = (w', o) ->
              exists cs, effects w' = effects w ++ cs /\
                Forall (retry_effect (request self agent_msg)) cs /\
                polls w' = polls w /\ clock_reads w' = clock_reads w).
    { intros o' Heq. inversion Heq; subst. exists [].
      rewrite app_nil_r. now repeat split. }
    destruct (String.eqb (error_msg response) RETRY); [| now apply Hstay in Hrun].
    destruct (args response) as [| a rest]; [now apply Hstay in Hrun |].
    destruct (float a) as [d |]; [| now apply Hstay in Hrun].
    destruct (sleep_accepts d); [| now apply Hstay in Hrun].
    cbv zeta in Hrun. destruct fuel as [| [| fuel] ].
    + inversion Hrun; subst. exists [Slept d]. simpl.
      repeat split. repeat constructor.
    + inversion Hrun; subst.
      exists [Slept d; Called (request self agent_msg)
                         (server h (calls w) (request self agent_msg))].
      simpl. rewrite <- app_assoc. repeat split. repeat constructor.
    + apply IH in Hrun; [| lia].
      destruct Hrun as (cs & Heff & Hcs & Hpolls & Hclock).
      exists ([Slept d; Called (request self agent_msg)
                          (server h (calls w) (request self agent_msg))] ++ cs).
      simpl in *. rewrite <- !app_assoc in Heff. simpl in Heff.
      repeat split; [exact Heff | | exact Hpolls | exact Hclock].
      repeat constructor. exact Hcs.
Qed.

(** A run of the method, whatever its outcome, is a run of the polling loop
    and then, if that loop has ended, the first call and a run of the retry
    loop. *)
Lemma method_inv_any (fuel : nat) (w w' : World) (o : option (Result unit)) :
  run h fuel (request_and_wait_for_response self agent_msg) w = (w', o) ->
  (o = None /\ run h fuel wait_for_service w = (w', None)) \/
  (exists w1 m,
      run h fuel wait_for_service w = (w1, Some (Returned tt)) /\
      ((o = None /\ w' = w1) \/
       run h m
         (retry_loop self agent_msg
            (server h (calls w1) (request self agent_msg)))
         (called (request self agent_msg)
            (server h (calls w1) (request self agent_msg)) w1)
       = (w', o))).
Proof.
  unfold request_and_wait_for_response. intros Hrun.
  apply run_bind_inv_any in Hrun.
  destruct Hrun as [ [-> Hwait] | [ (e & _ & Hwait) | (w1 & [] & m & Hwait & _ & Hrest) ] ].
  - left. now split.
  - apply wait_for_service_inv in Hwait. destruct Hwait as [Habs _].
    discriminate.
  - right. exists w1. destruct m as [| m].
    + exists 0. split; [exact Hwait |]. left.
      simpl in Hrest. inversion Hrest; subst. now split.
    + exists m. split; [exact Hwait |]. right.
      rewrite run_call in Hrest. exact Hrest.
Qed.

(** X1: while no poll finds the service ready, the call never ends and
    never sends its request, however long it runs. *)
Theorem request_blocks_while_service_not_ready (w : World) :
  (forall i, service_ready h (polls w + i) = false) ->
  diverges h (request_and_wait_for_response self agent_msg) w /\
  forall fuel,
    calls (fst (run h fuel (request_and_wait_for_response self agent_msg) w))
    = calls w.
Proof.
  intros Hbusy.
  assert (Hrun : forall fuel, exists w',
            run h fuel (request_and_wait_for_response self agent_msg) w
              = (w', None) /\ calls w' = calls w).
  { intros fuel.
    pose proof (@wait_for_service_blocks fuel w Hbusy) as Hwait.
    destruct (run h fuel wait_for_service w) as [w' o] eqn:E.
    simpl in Hwait. subst o. exists w'. split.
    - unfold request_and_wait_for_response.
      now apply run_bind_unfinished.
    - apply wait_for_service_effects in E.
      destruct E as (ps & _ & _ & Hcalls & _). exact Hcalls. }
  split.
  - intros fuel. destruct (Hrun fuel) as (w' & -> & _). reflexivity.
  - intros fuel. destruct (Hrun fuel) as (w' & -> & Hcalls). exact Hcalls.
Qed.

(** The effects of a run of the method: those of the polling loop, then
    those of the first call and the retry loop. *)
Lemma method_effects (fuel : nat) (w w' : World)
  (o : option (Result unit)) :
  run h fuel (request_and_wait_for_response self agent_msg) w = (w', o) ->
  exists ps cs,
    effects w' = effects w ++ ps ++ cs /\
    Forall poll_effect ps /\
    Forall (retry_effect
              (AgentRequest_Request agent_msg
                 (AgentTestExecutor.agent_id self))) cs /\
    clock_reads w' = clock_reads w.
Proof.
  intros Hrun. apply method_inv_any in Hrun.
  destruct Hrun as [ [_ Hwait] | (w1 & m & Hwait & Hrest) ].
  - apply wait_for_service_effects in Hwait.
    destruct Hwait as (ps & Heff & Hps & _ & Hclock).
    exists ps, []. rewrite app_nil_r. now repeat split.
  - apply wait_for_service_effects in Hwait.
    destruct Hwait as (ps & Heff & Hps & _ & Hclock).
    destruct Hrest as [ [_ ->] | Hloop ].
    + exists ps, []. rewrite app_nil_r. now repeat split.
    + apply retry_loop_effects in Hloop.
      destruct Hloop as (cs & Heff' & Hcs & _ & Hclock').
      exists ps,
        (Called (request self agent_msg)
           (server h (calls w1) (request self agent_msg)) :: cs).
      simpl in *. repeat split.
      * rewrite Heff', Heff. rewrite <- !app_assoc. reflexivity.
      * exact Hps.
      * constructor; [reflexivity | exact Hcs].
      * now rewrite Hclock'.
Qed.

(** X2: in every run of the call, ended or not, the effects are polls and
    sleeps of 0.1, then sends of the one request (the given [agent_msg],
    the [agent_id] of the executor) and sleeps: no other request is sent,
    the service is not polled again once a request is out, nothing is
    logged or published and the clock is not read. *)
Theorem request_effects_shape (fuel : nat) (w w' : World)
  (o : option (Result unit)) :
  run h fuel (request_and_wait_for_response self agent_msg) w = (w', o) ->
  exists ps cs,
    effects w' = effects w ++ ps ++ cs /\
    Forall poll_effect ps /\
    Forall (retry_effect
              (AgentRequest_Request agent_msg
                 (AgentTestExecutor.agent_id self))) cs /\
    clock_reads w' = clock_reads w.
Proof. apply method_effects. Qed.

(** X3: a run of the call in which a request was sent has polled the
    service exactly up to the first poll that found it ready: no request
    goes out before that poll, and the service is not polled after it. *)
Theorem request_sent_only_when_ready (fuel : nat) (w w' : World)
  (o : option (Result unit)) :
  run h fuel (request_and_wait_for_response self agent_msg) w = (w', o) ->
  calls w' <> calls w ->
  exists n,
    (forall i, i < n -> service_ready h (polls w + i) = false) /\
    service_ready h (polls w + n) = true /\
    polls w' = polls w + S n.
Proof.
  intros Hrun Hsent. apply method_inv_any in Hrun.
  destruct Hrun as [ [_ Hwait] | (w1 & m & Hwait & Hrest) ].
  - apply wait_for_service_effects in Hwait.
    destruct Hwait as (ps & _ & _ & Hcalls & _). contradiction.
  - pose proof (wait_for_service_effects _ _ Hwait)
      as (ps & _ & _ & Hcalls & _).
    apply wait_for_service_ready in Hwait.
    destruct Hwait as (n & Hbusy & Hready & Hpolls).
    destruct Hrest as [ [_ ->] | Hloop ]; [contradiction |].
    apply retry_loop_effects in Hloop.
    destruct Hloop as (cs & _ & _ & Hpolls' & _).
    exists n. repeat split; [exact Hbusy | exact Hready |].
    simpl in Hpolls'. now rewrite Hpolls'.
Qed.

(** A RETRY response whose length [sleep] refuses, reached through RETRY
    responses that carry accepted lengths, ends the loop with the exception
    of [sleep]. *)
Lemma retry_loop_sleep_refused (delays : nat -> float64) (refused : float64)
  (k d : nat) :
  forall (j : nat) (w : World),
    k = j + d ->
    calls w = S j ->
    (forall i, j <= i < k ->
       error_msg (server h i (request self agent_msg)) = RETRY /\
       retry_delay (server h i (request self agent_msg)) = Some (delays i) /\
       sleep_accepts (delays i) = true) ->
    error_msg (server h k (request self agent_msg)) = RETRY ->
    retry_delay (server h k (request self agent_msg)) = Some refused ->
    sleep_accepts refused = false ->
    finishes h
      (retry_loop self agent_msg (server h j (request self agent_msg))) w
      {| polls := polls w; calls := S k; clock_reads := clock_reads w;
         effects := effects w
           ++ flat_map
                (fun i => [Slept (delays i);
                           Called (request self agent_msg)
                             (server h (S i) (request self agent_msg))])
                (seq j d) |}
      (Raised SleepError).
Proof.
  induction d as [| d IH]; intros j w Hk Hcalls Hretry Hlast Hdelay Hrefused.
  - rewrite Nat.add_0_r in Hk. subst k.
    exists 1. rewrite run_retry_loop.
    apply String.eqb_eq in Hlast. rewrite Hlast.
    unfold retry_delay in Hdelay.
    destruct (args (server h j (request self agent_msg))) as [| a rest];
      [discriminate |].
    rewrite Hdelay, Hrefused. f_equal.
    destruct w; simpl in *. apply world_eq; try easy.
    now rewrite app_nil_r.
  - destruct (Hretry j) as (Herr & Hdj & Hsleep); [lia |].
    unfold retry_delay in Hdj.
    destruct (args (server h j (request self agent_msg))) as [| a rest] eqn:Ha;
      [discriminate |].
    set (w2 := called (request self agent_msg)
                 (server h (S j) (request self agent_msg))
                 (record (Slept (delays j)) w)).
    destruct (IH (S j) w2) as [m Hm]; try assumption.
    + lia.
    + simpl. now rewrite Hcalls.
    + intros i Hi. apply Hretry. lia.
    + exists (S (S (S m))). rewrite run_retry_loop.
      apply String.eqb_eq in Herr. rewrite Herr, Ha, Hdj, Hsleep.
      cbv zeta. rewrite Hcalls. fold w2. rewrite Hm.
      f_equal. subst w2. simpl. apply world_eq; try reflexivity.
      rewrite <- !app_assoc. reflexivity.
Qed.

(** X4: a RETRY response whose first argument [float] reads as a length
    that [sleep] refuses makes the call raise the exception of [sleep]
    right after the call it answers: the call neither sleeps nor sends the
    request again. *)
Theorem request_raises_on_refused_sleep (delays : nat -> float64)
  (refused : float64) (n k : nat) (w : World) :
  let request :=
    AgentRequest_Request agent_msg (AgentTestExecutor.agent_id self) in
  let response := fun j => server h (calls w + j) request in
  (forall i, i < n -> service_ready h (polls w + i) = false) ->
  service_ready h (polls w + n) = true ->
  (forall j, j < k ->
     error_msg (response j) = RETRY /\
     retry_delay (response j) = Some (delays j) /\
     sleep_accepts (delays j) = true) ->
  error_msg (response k) = RETRY ->
  retry_delay (response k) = Some refused ->
  sleep_accepts refused = false ->
  finishes h (request_and_wait_for_response self agent_msg) w
    {| polls := polls w + S n; calls := calls w + S k;
       clock_reads := clock_reads w;
       effects := effects w
         ++ concat (repeat [Polled false; Slept poll_period] n)
         ++ [Polled true]
         ++ [Called request (response 0)]
         ++ flat_map
              (fun j => [Slept (delays j); Called request (response (S j))])
              (seq 0 k) |}
    (Raised SleepError).
Proof.
  intros rq rs Hbusy Hready Hretry Hlast Hdelay Hrefused.
  subst rs rq. cbv beta in *. rewrite Nat.add_0_r.
  eapply method_finishes; [exact Hbusy | exact Hready |].
  destruct (@retry_loop_sleep_refused
              (fun i => delays (i - calls w)) refused (calls w + k) k (calls w)
              {| polls := polls w + S n; calls := S (calls w);
                 clock_reads := clock_reads w;
                 effects := effects w
                   ++ concat (repeat [Polled false; Slept poll_period] n)
                   ++ [Polled true]
                   ++ [Called (request self agent_msg)
                         (server h (calls w) (request self agent_msg))] |}
              eq_refl eq_refl) as [m Hm]; try assumption.
  - intros i Hi. replace i with (calls w + (i - calls w)) at 1 2 by lia.
    apply Hretry. lia.
  - exists m. rewrite Hm. cbn [polls calls clock_reads effects].
    f_equal. apply world_eq; try lia.
    rewrite <- !app_assoc. do 4 f_equal.
    rewrite flat_map_seq_from. apply flat_map_ext. intros j.
    rewrite Nat.add_succ_r.
    replace (calls w + j - calls w) with j by lia. reflexivity.
Qed.

(** When the retry loop returns, every RETRY response it went through
    carried a length that [sleep] accepted. *)
Lemma retry_loop_returned_valid (fuel : nat) :
  forall (j : nat) (w w' : World),
    calls w = S j ->
    run h fuel
      (retry_loop self agent_msg (server h j (request self agent_msg))) w
      = (w', Some (Returned tt)) ->
    exists (d : nat) (delays : nat -> float64),
      (forall i, j <= i < j + d ->
         error_msg (server h i (request self agent_msg)) = RETRY /\
         retry_delay (server h i (request self agent_msg)) = Some (delays i) /\
         sleep_accepts (delays i) = true) /\
      error_msg (server h (j + d) (request self agent_msg)) <> RETRY.
Proof.
  induction fuel as [fuel IH] using lt_wf_ind. intros j w w' Hcalls Hrun.
  destruct fuel as [| fuel]; [discriminate |].
  rewrite run_retry_loop in Hrun.
  destruct (String.eqb_spec
              (error_msg (server h j (request self agent_msg))) RETRY)
    as [Herr | Herr].
  - destruct (args (server h j (request self agent_msg))) as [| a rest] eqn:Ha;
      [discriminate |].
    destruct (float a) as [s |] eqn:Hs; [| discriminate].
    destruct (sleep_accepts s) eqn:Hsleep; [| discriminate].
    cbv zeta in Hrun. destruct fuel as [| [| fuel] ]; try discriminate.
    rewrite Hcalls in Hrun.
    apply IH in Hrun; [| lia | simpl; now rewrite Hcalls].
    destruct Hrun as (d & delays & Hvalid & Hlast).
    exists (S d), (fun i => if Nat.eqb i j then s else delays i). split.
    + intros i Hi. destruct (Nat.eqb_spec i j) as [-> | Hne].
      * repeat split; [exact Herr | | exact Hsleep].
        unfold retry_delay. now rewrite Ha.
      * apply Hvalid. lia.
    + now rewrite Nat.add_succ_r.
  - exists 0, (fun _ => poll_period). split; [intros i Hi; lia |].
    now rewrite Nat.add_0_r.
Qed.

(** X5: the call returns in one way only. Whenever it returns, the service
    was found ready at some poll, the responses before the first that is no
    RETRY each carried a length that [float] read and [sleep] accepted, and
    the call leaves exactly the polls, the sends and the sleeps of these
    responses. *)
Theorem request_returns_only_after_valid_retries (w w' : World) :
  let request :=
    AgentRequest_Request agent_msg (AgentTestExecutor.agent_id self) in
  let response := fun j => server h (calls w + j) request in
  finishes h (request_and_wait_for_response self agent_msg) w w'
    (Returned tt) ->
  exists (n k : nat) (delays : nat -> float64),
    (forall i, i < n -> service_ready h (polls w + i) = false) /\
    service_ready h (polls w + n) = true /\
    (forall j, j < k ->
       error_msg (response j) = RETRY /\
       retry_delay (response j) = Some (delays j) /\
       sleep_accepts (delays j) = true) /\
    error_msg (response k) <> RETRY /\
    w' = {| polls := polls w + S n; calls := calls w + S k;
            clock_reads := clock_reads w;
            effects := effects w
              ++ concat (repeat [Polled false; Slept poll_period] n)
              ++ [Polled true]
              ++ [Called request (response 0)]
              ++ flat_map
                   (fun j => [Slept (delays j);
                              Called request (response (S j))])
                   (seq 0 k) |}.
Proof.
  intros rq rs Hfin. subst rs rq. cbv beta.
  destruct Hfin as [fuel Hrun].
  pose proof Hrun as Hrun'. apply method_inv_any in Hrun'.
  destruct Hrun' as [ [Habs _] | (w1 & m & Hwait & Hrest) ]; [discriminate |].
  destruct Hrest as [ [Habs _] | Hloop ]; [discriminate |].
  pose proof (wait_for_service_inv _ _ _ Hwait) as [_ Hcalls].
  apply wait_for_service_ready in Hwait.
  destruct Hwait as (n & Hbusy & Hready & _).
  rewrite Hcalls in Hloop.
  apply retry_loop_returned_valid in Hloop; [| simpl; now rewrite Hcalls].
  destruct Hloop as (k & delays & Hvalid & Hlast).
  exists n, k, (fun j => delays (calls w + j)).
  assert (Hretry : forall j, j < k ->
            error_msg (server h (calls w + j) (request self agent_msg))
              = RETRY /\
            retry_delay (server h (calls w + j) (request self agent_msg))
              = Some (delays (calls w + j)) /\
            sleep_accepts (delays (calls w + j)) = true).
  { intros j Hj. apply Hvalid. lia. }
  repeat split; try assumption.
  - apply (Hretry j H).
  - apply (Hretry j H).
  - apply (Hretry j H).
  - pose proof (@method_returns _ _ h self agent_msg
                  (fun j => delays (calls w + j)) n k w
                  Hbusy Hready Hretry Hlast) as Hexact.
    destruct (finishes_unique (ex_intro _ fuel Hrun) Hexact) as [-> _].
    now rewrite Nat.add_0_r.
Qed.



End MoreRequestLoop.

(** ** Disconnecting and reconnecting *)

Section Reconnect.
Context {PF : PyFloat} {MT : ManagerTypes}.
Variable h : Host.
Variable self : AgentTestExecutor.t.

Import AgentTestExecutor.

Lemma poll_effect_request (request : Request) (ev : Effect) :
  poll_effect ev -> request_effect request ev.
Proof. destruct ev; simpl; tauto. Qed.

Lemma retry_effect_request (request : Request) (ev : Effect) :
  retry_effect request ev -> request_effect request ev.
Proof. destruct ev; simpl; tauto. Qed.

(** Every effect of a call is an effect for its request. *)
Lemma method_request_effects (agent_msg : string) (fuel : nat)
  (w w' : World) (o : option (Result unit)) :
  run h fuel (request_and_wait_for_response self agent_msg) w = (w', o) ->
  exists es,
    effects w' = effects w ++ es /\
    Forall (request_effect (request self agent_msg)) es.
Proof.
  intros Hrun. apply method_effects in Hrun.
  destruct Hrun as (ps & cs & Heff & Hps & Hcs & _).
  exists (ps ++ cs). split; [exact Heff |].
  apply Forall_app. split.
  - eapply Forall_impl; [| exact Hps]. apply poll_effect_request.
  - eapply Forall_impl; [| exact Hcs]. apply retry_effect_request.
Qed.

(** X6: every run of [disconect_and_reconnect], ended or not, is a run of
    the call for AGENT_DISCONNECTED and, once and only once that call has
    returned, a run of one call for IDLE from the world it left. So the
    effects are those of the disconnect call followed by those of the idle
    call; the second part is empty unless the disconnect call has returned,
    and it holds no request for AGENT_DISCONNECTED. *)
Theorem reconnect_follows_disconnect (fuel : nat) (w w' : World)
  (o : option (Result unit)) :
  run h fuel (disconect_and_reconnect self) w = (w', o) ->
  exists (fuel1 : nat) (w1 : World) (o1 : option (Result unit))
         (e1 e2 : list Effect),
    run h fuel1 (request_and_wait_for_response self AGENT_DISCONNECTED) w
      = (w1, o1) /\
    effects w1 = effects w ++ e1 /\
    effects w' = effects w ++ e1 ++ e2 /\
    Forall (request_effect
              (AgentRequest_Request AGENT_DISCONNECTED
                 (AgentTestExecutor.agent_id self))) e1 /\
    Forall (request_effect
              (AgentRequest_Request IDLE
                 (AgentTestExecutor.agent_id self))) e2 /\
    (forall response,
       ~ In (Called (AgentRequest_Request AGENT_DISCONNECTED
                       (AgentTestExecutor.agent_id self)) response) e2) /\
    ((o1 = Some (Returned tt) /\
      exists fuel2,
        run h fuel2 (request_and_wait_for_response self IDLE) w1 = (w', o)) \/
     (o1 <> Some (Returned tt) /\ w' = w1 /\ o = o1 /\ e2 = [])).
Proof.
  unfold disconect_and_reconnect, request_and_wait_for_response_default.
  intros Hrun. apply run_bind_inv_any in Hrun.
  destruct Hrun
    as [ [-> Hfirst] | [ (e & -> & Hfirst) | (w1 & [] & m & Hfirst & _ & Hsecond) ] ].
  - pose proof (method_request_effects _ _ _ Hfirst) as (e1 & Heff & He1).
    exists fuel, w', None, e1, []. rewrite app_nil_r.
    repeat split; [exact Hfirst | exact Heff | exact Heff | exact He1
                  | constructor | intros response [] | ].
    right. repeat split. discriminate.
  - pose proof (method_request_effects _ _ _ Hfirst) as (e1 & Heff & He1).
    exists fuel, w', (Some (Raised e)), e1, []. rewrite app_nil_r.
    repeat split; [exact Hfirst | exact Heff | exact Heff | exact He1
                  | constructor | intros response [] | ].
    right. repeat split. discriminate.
  - pose proof (method_request_effects _ _ _ Hfirst) as (e1 & Heff1 & He1).
    pose proof (method_request_effects _ _ _ Hsecond) as (e2 & Heff2 & He2).
    exists fuel, w1, (Some (Returned tt)), e1, e2.
    repeat split.
    + exact Hfirst.
    + exact Heff1.
    + rewrite Heff2, Heff1. now rewrite app_assoc.
    + exact He1.
    + exact He2.
    + intros response Hin.
      rewrite Forall_forall in He2. apply He2 in Hin. simpl in Hin.
      unfold request, AgentRequest_Request in Hin.
      inversion Hin as [Hmsg]. apply request_types_distinct. now symmetry.
    + left. split; [reflexivity |]. exists m. exact Hsecond.
Qed.

(** X7: nothing in [disconect_and_reconnect] catches what the disconnect
    call raises: when that call raises, the whole raises the same exception
    in the same world, so the reconnect is not attempted; and when that
    call never ends, the whole never ends. *)
Theorem reconnect_not_attempted_after_failure (w : World) :
  (forall w1 e,
     finishes h (request_and_wait_for_response self AGENT_DISCONNECTED)
       w w1 (Raised e) ->
     finishes h (disconect_and_reconnect self) w w1 (Raised e)) /\
  (diverges h (request_and_wait_for_response self AGENT_DISCONNECTED) w ->
   diverges h (disconect_and_reconnect self) w).
Proof.
  split.
  - intros w1 e Hfirst. unfold disconect_and_reconnect.
    now apply finishes_bind_raised.
  - intros Hdiv. unfold disconect_and_reconnect. now apply diverges_bind.
Qed.

(** X8: when the service is found ready and the server answers the
    disconnect request, then the service is found ready again and the
    server answers the idle request (each answer after any number of RETRY
    responses with accepted lengths), [disconect_and_reconnect] returns
    after the polls and the calls of both. *)
Theorem disconnect_then_reconnect_returns (delays1 delays2 : nat -> float64)
  (n1 k1 n2 k2 : nat) (w : World) :
  let disconnect :=
    AgentRequest_Request AGENT_DISCONNECTED (AgentTestExecutor.agent_id self) in
  let idle :=
    AgentRequest_Request IDLE (AgentTestExecutor.agent_id self) in
  (forall i, i < n1 -> service_ready h (polls w + i) = false) ->
  service_ready h (polls w + n1) = true ->
  (forall j, j < k1 ->
     error_msg (server h (calls w + j) disconnect) = RETRY /\
     retry_delay (server h (calls w + j) disconnect) = Some (delays1 j) /\
     sleep_accepts (delays1 j) = true) ->
  error_msg (server h (calls w + k1) disconnect) <> RETRY ->
  (forall i, i < n2 -> service_ready h (polls w + S n1 + i) = false) ->
  service_ready h (polls w + S n1 + n2) = true ->
  (forall j, j < k2 ->
     error_msg (server h (calls w + S k1 + j) idle) = RETRY /\
     retry_delay (server h (calls w + S k1 + j) idle) = Some (delays2 j) /\
     sleep_accepts (delays2 j) = true) ->
  error_msg (server h (calls w + S k1 + k2) idle) <> RETRY ->
  exists w',
    finishes h (disconect_and_reconnect self) w w' (Returned tt) /\
    polls w' = polls w + S n1 + S n2 /\
    calls w' = calls w + S k1 + S k2.
Proof.
  intros disconnect idle Hbusy1 Hready1 Hretry1 Hlast1
         Hbusy2 Hready2 Hretry2 Hlast2.
  pose proof (@method_returns _ _ h self AGENT_DISCONNECTED delays1 n1 k1 w
                Hbusy1 Hready1 Hretry1 Hlast1) as Hfirst.
  match type of Hfirst with
  | finishes _ _ _ ?w1 _ =>
      pose proof (@method_returns _ _ h self IDLE delays2 n2 k2 w1
                    Hbusy2 Hready2 Hretry2 Hlast2) as Hsecond
  end.
  eexists. split.
  - unfold disconect_and_reconnect, request_and_wait_for_response_default.
    eapply finishes_bind; [exact Hfirst | exact Hsecond].
  - split; reflexivity.
Qed.

End Reconnect.

(** ** More on the path callback *)

Section MorePathCallback.
Context {PF : PyFloat} {MT : ManagerTypes}.
Variable h : Host.
Variable self : AgentTestExecutor.t.

Import AgentTestExecutor.

(** The scan is a search for the first entry addressed to the executor. *)
Lemma scan_paths_find (paths : list AssignedPath) :
  scan_paths self paths =
  ITree.trigger
    (LogInfo match find (addressed_to self) paths with
             | Some p => path_published self p
             | None => no_path_published self
             end).
Proof.
  induction paths as [| q paths IH]; simpl; [reflexivity |].
  unfold addressed_to at 1.
  destruct (String.eqb (path_agent_id q) (AgentTestExecutor.agent_id self));
    [reflexivity | exact IH].
Qed.

(** X9: the entries addressed to other agents play no part: the callback
    on a message is the callback on the message without them. *)
Theorem sol_callback_ignores_other_agents (msg : AgentPaths) :
  sol_callback self msg =
  sol_callback self
    {| agent_paths := filter (addressed_to self) (agent_paths msg) |}.
Proof.
  unfold sol_callback. simpl.
  induction (agent_paths msg) as [| q paths IH]; simpl; [reflexivity |].
  unfold addressed_to at 1.
  destruct (String.eqb (path_agent_id q) (AgentTestExecutor.agent_id self))
    eqn:E; simpl.
  - now rewrite E.
  - exact IH.
Qed.

(** X10: the entries after an entry addressed to the executor play no
    part, whatever they are. *)
Theorem sol_callback_ignores_later_entries (before : list AssignedPath)
  (p : AssignedPath) (after after' : list AssignedPath) :
  path_agent_id p = AgentTestExecutor.agent_id self ->
  sol_callback self {| agent_paths := before ++ p :: after |} =
  sol_callback self {| agent_paths := before ++ p :: after' |}.
Proof.
  intros Hp. unfold sol_callback. simpl.
  induction before as [| q before IH]; simpl.
  - now rewrite Hp, String.eqb_refl.
  - destruct (String.eqb (path_agent_id q) (AgentTestExecutor.agent_id self));
      [reflexivity | exact IH].
Qed.

(** X11: on every message the callback ends after logging exactly one
    line, and that line is the not-found line exactly when no entry is
    addressed to the executor. *)
Theorem sol_callback_logs_one_line (msg : AgentPaths) (w : World) :
  exists line,
    finishes h (sol_callback self msg) w
      {| polls := polls w; calls := calls w; clock_reads := clock_reads w;
         effects := effects w ++ [Logged line] |}
      (Returned tt) /\
    (line = no_path_published self <->
     forall q, In q (agent_paths msg) ->
               path_agent_id q <> AgentTestExecutor.agent_id self).
Proof.
  unfold sol_callback. rewrite scan_paths_find.
  destruct (find (addressed_to self) (agent_paths msg)) as [p |] eqn:E.
  - exists (path_published self p). split; [apply finishes_log |].
    split.
    + intros Habs. now apply path_published_not_no_path in Habs.
    + intros Hnone. apply find_some in E. destruct E as [Hin Hp].
      apply String.eqb_eq in Hp. now apply Hnone in Hin.
  - exists (no_path_published self). split; [apply finishes_log |].
    split; [| reflexivity].
    intros _ q Hin Heq.
    apply (find_none _ _ E) in Hin. unfold addressed_to in Hin.
    apply String.eqb_neq in Hin. contradiction.
Qed.

(** X12: an entry addressed to the executor whose path is empty is logged
    as a published path with nothing after the colon, and a path of one
    point is logged as that point with no arrow. *)
Theorem sol_callback_short_paths (msg : AgentPaths) (w : World)
  (before : list AssignedPath) (p : AssignedPath) (after : list AssignedPath) :
  agent_paths msg = before ++ p :: after ->
  (forall q, In q before ->
             path_agent_id q <> AgentTestExecutor.agent_id self) ->
  path_agent_id p = AgentTestExecutor.agent_id self ->
  (path p = [] ->
   finishes h (sol_callback self msg) w
     {| polls := polls w; calls := calls w; clock_reads := clock_reads w;
        effects := effects w ++
          [Logged ("PATH PUBLISHED FOR "
                   ++ AgentTestExecutor.agent_id self ++ ": ")] |}
     (Returned tt)) /\
  (forall point, path p = [point] ->
   finishes h (sol_callback self msg) w
     {| polls := polls w; calls := calls w; clock_reads := clock_reads w;
        effects := effects w ++
          [Logged ("PATH PUBLISHED FOR "
                   ++ AgentTestExecutor.agent_id self ++ ": "
                   ++ "(" ++ float_repr (vx (translation point)) ++ ", "
                   ++ float_repr (vz (translation point)) ++ ")")] |}
     (Returned tt)).
Proof.
  intros Hmsg Hbefore Hp.
  assert (Hline : finishes h (sol_callback self msg) w
            (record (Logged (path_published self p)) w) (Returned tt)).
  { unfold sol_callback. rewrite Hmsg.
    rewrite (scan_paths_first_match self before p after Hbefore Hp).
    apply finishes_log. }
  unfold path_published, string_solution in Hline.
  split.
  - intros Hempty. now rewrite Hempty in Hline.
  - intros point Hone. rewrite Hone in Hline. simpl in Hline.
    unfold str_point in Hline. exact Hline.
Qed.

End MorePathCallback.

(** ** Node names and broadcasts *)

Section NamesAndBroadcasts.
Context {PF : PyFloat}.
Variable h : Host.

(** X13: two executors have the same node name exactly when they have the
    same agent id. *)
Theorem executor_node_name_identifies_agent (a b : string) :
  AgentTestExecutor.node_name (AgentTestExecutor.init a)
    = AgentTestExecutor.node_name (AgentTestExecutor.init b)
  <-> a = b.
Proof.
  split; [| now intros ->]. simpl. apply append_inv_suffix.
Qed.

(** X14: the node name of a fixed-frame broadcaster is made from the child
    frame id alone: two broadcasters have the same node name exactly when
    they have the same child frame id, whatever their parents, positions
    and periods. *)
Theorem broadcaster_node_name_from_child (parent parent' child child' : string)
  (v v' : Vector3) (freq freq' : float64) :
  FixedFrameBroadcaster.node_name
    (FixedFrameBroadcaster.init parent child v freq)
    = FixedFrameBroadcaster.node_name
        (FixedFrameBroadcaster.init parent' child' v' freq')
  <-> child = child'.
Proof.
  split; [| now intros ->]. simpl. intros Heq.
  inversion Heq as [Hrest]. now apply append_inv_suffix in Hrest.
Qed.

(** One tick, with the whole message. *)
Lemma broadcast_timer_callback_message (self : FixedFrameBroadcaster.t)
  (w : World) :
  finishes h (FixedFrameBroadcaster.broadcast_timer_callback self) w
    {| polls := polls w; calls := calls w;
       clock_reads := S (clock_reads w);
       effects := effects w ++
         [Sent (stamped_transform
                  (FixedFrameBroadcaster.parent_id self)
                  (FixedFrameBroadcaster.child_id self)
                  (FixedFrameBroadcaster.pos self)
                  (clock h (clock_reads w)))] |}
    (Returned tt).
Proof.
  destruct self as [name parent child [x y z] period].
  exists 3. reflexivity.
Qed.

(** X15: each tick of the timer reads the clock once and sends one message
    stamped with that reading; apart from the stamp the message is the same
    at every tick, and its rotation is the one of a new message, which the
    callback never sets. *)
Theorem timer_ticks_stamp_each_message (self : FixedFrameBroadcaster.t)
  (n : nat) :
  forall w : World,
    finishes h (FixedFrameBroadcaster.timer_ticks n self) w
      {| polls := polls w; calls := calls w;
         clock_reads := clock_reads w + n;
         effects := effects w ++
           map (fun i =>
                  Sent (stamped_transform
                          (FixedFrameBroadcaster.parent_id self)
                          (FixedFrameBroadcaster.child_id self)
                          (FixedFrameBroadcaster.pos self)
                          (clock h (clock_reads w + i))))
               (seq 0 n) |}
      (Returned tt).
Proof.
  induction n as [| n IH]; intros w.
  - exists 1. simpl. f_equal. destruct w; simpl.
    apply world_eq; try lia. now rewrite app_nil_r.
  - simpl FixedFrameBroadcaster.timer_ticks.
    eapply finishes_bind; [apply broadcast_timer_callback_message |].
    destruct (IH {| polls := polls w; calls := calls w;
                    clock_reads := S (clock_reads w);
                    effects := effects w ++
                      [Sent (stamped_transform
                               (FixedFrameBroadcaster.parent_id self)
                               (FixedFrameBroadcaster.child_id self)
                               (FixedFrameBroadcaster.pos self)
                               (clock h (clock_reads w)))] |})
      as [m Hm].
    exists m. rewrite Hm. cbn [polls calls clock_reads effects].
    f_equal. apply world_eq; try lia.
    rewrite <- app_assoc. f_equal. simpl. rewrite Nat.add_0_r. f_equal.
    rewrite <- seq_shift, map_map. apply map_ext. intros i.
    now rewrite Nat.add_succ_r.
Qed.

(** X16: the broadcasts of the test broadcaster are ticks of fixed-frame
    broadcasters: [broadcast_agent] is the callback of the broadcaster of
    the agent's frame under the frame arena at [loc], [broadcast_arena] the
    callback of the broadcaster of the frame arena under the frame world at
    (1.0, 1.0, 1.0). *)
Theorem test_broadcasts_are_fixed_frame_ticks (self : TestFrameBroadcaster.t)
  (agent_id : string) (loc : float64 * float64 * float64) (freq : float64) :
  TestFrameBroadcaster.broadcast_agent self agent_id loc =
    FixedFrameBroadcaster.broadcast_timer_callback
      (FixedFrameBroadcaster.init "arena" agent_id
         {| vx := fst (fst loc); vy := snd (fst loc); vz := snd loc |} freq)
  /\
  TestFrameBroadcaster.broadcast_arena self =
    FixedFrameBroadcaster.broadcast_timer_callback
      (FixedFrameBroadcaster.init "world" "arena"
         {| vx := float_one; vy := float_one; vz := float_one |} freq).
Proof. split; reflexivity. Qed.

End NamesAndBroadcasts.

(** ** The statements on the sample host *)

Section Examples.
#[local] Existing Instance Sample.floats.
#[local] Existing Instance Sample.manager_types.

Import AgentTestExecutor.

(** The amended C1 on the answering host: one busy poll, two retries, then
    the answer. *)
Lemma request_and_wait_retries_until_answered_witness :
  finishes Sample.answering_host
    (request_and_wait_for_response Sample.executor "IDLE") World_init
    {| polls := 2; calls := 3; clock_reads := 0;
       effects :=
         [Polled false; Slept 1%Z; Polled true;
          Called Sample.idle_request (Sample.retry ["2"]);
          Slept 20%Z;
          Called Sample.idle_request (Sample.retry ["0"]);
          Slept 0%Z;
          Called Sample.idle_request Sample.wait_plan] |}
    (Returned tt).
Proof.
  apply (@request_and_wait_retries_until_answered
           Sample.floats Sample.manager_types Sample.answering_host
           Sample.executor "IDLE" (fun j => nth j [20%Z; 0%Z] 0%Z) 1 2
           World_init).
  - intros i Hi. destruct i as [| i]; [reflexivity | lia].
  - reflexivity.
  - intros j Hj. destruct j as [| [| j] ]; [| | lia]; repeat split.
  - discriminate.
Defined.

(** C1 as it is written fails on the bare-retry host: the first response is
    a RETRY, the second is not, and the call neither sleeps nor sends the
    request again nor returns: it raises IndexError after its first call. *)
Lemma request_and_wait_bare_retry_raises :
  service_ready Sample.bare_retry_host 0 = true /\
  error_msg (server Sample.bare_retry_host 0 Sample.idle_request) = RETRY /\
  error_msg (server Sample.bare_retry_host 1 Sample.idle_request) <> RETRY /\
  finishes Sample.bare_retry_host
    (request_and_wait_for_response Sample.executor "IDLE") World_init
    {| polls := 1; calls := 1; clock_reads := 0;
       effects := [Polled true;
                   Called Sample.idle_request (Sample.retry [])] |}
    (Raised IndexError) /\
  (forall w',
     ~ finishes Sample.bare_retry_host
         (request_and_wait_for_response Sample.executor "IDLE") World_init w'
         (Returned tt)).
Proof.
  assert (Hraise :
    finishes Sample.bare_retry_host
      (request_and_wait_for_response Sample.executor "IDLE") World_init
      {| polls := 1; calls := 1; clock_reads := 0;
         effects := [Polled true;
                     Called Sample.idle_request (Sample.retry [])] |}
      (Raised IndexError)) by (exists 4; reflexivity).
  repeat split; [discriminate | exact Hraise |].
  intros w' Hret.
  destruct (finishes_unique Hraise Hret) as [_ Habs]. discriminate.
Qed.



(** C9 on the answering host, whose RETRY responses carry readable
    arguments, and on the bare-retry host, whose RETRY response carries
    none. *)
Lemma retry_arguments_are_not_guarded_witness :
  (forall fuel w' e,
     run Sample.answering_host fuel
       (request_and_wait_for_response Sample.executor "IDLE") World_init
       = (w', Some (Raised e)) ->
     e <> IndexError /\ e <> FloatValueError) /\
  (exists w' e,
     finishes Sample.bare_retry_host
       (request_and_wait_for_response Sample.executor "IDLE") World_init w'
       (Raised e)) /\
  (exists w',
     finishes Sample.bare_retry_host
       (request_and_wait_for_response Sample.executor "IDLE") World_init w'
       (Raised IndexError) /\
     calls w' = 1).
Proof.
  destruct (@retry_arguments_are_not_guarded
              Sample.floats Sample.manager_types Sample.answering_host
              Sample.executor "IDLE" World_init) as [Hguard _].
  destruct (@retry_arguments_are_not_guarded
              Sample.floats Sample.manager_types Sample.bare_retry_host
              Sample.executor "IDLE" World_init) as (_ & Hfail & Hconv).
  split; [| split].
  - apply Hguard. intros j Herr.
    destruct j as [| [| j] ]; [discriminate | discriminate |].
    destruct j; discriminate Herr.
  - apply (Hfail 0 0).
    + intros i Hi. lia.
    + reflexivity.
    + intros j Hj. destruct j as [| j]; [reflexivity | lia].
    + reflexivity.
  - apply (Hconv (fun _ => 0%Z) 0 0).
    + intros i Hi. lia.
    + reflexivity.
    + intros j Hj. lia.
    + reflexivity.
    + reflexivity.
Defined.

(** C5 on a message whose second and third entries are for the executor,
    and on a message with no entry for it. *)
Lemma sol_callback_first_match_wins_witness :
  finishes Sample.patient_host
    (sol_callback Sample.executor Sample.paths_for_agent_1) World_init
    {| polls := 0; calls := 0; clock_reads := 0;
       effects :=
         [Logged "PATH PUBLISHED FOR agent_1: (1.0, 3.0)-->(4.0, 6.0)"] |}
    (Returned tt) /\
  finishes Sample.patient_host
    (sol_callback Sample.executor Sample.paths_for_others) World_init
    {| polls := 0; calls := 0; clock_reads := 0;
       effects := [Logged "NO PATH PUBLISHED FOR agent_1"] |}
    (Returned tt).
Proof.
  split.
  - refine (proj1
      (proj1 (@sol_callback_first_match_wins
                Sample.floats Sample.patient_host Sample.executor
                Sample.paths_for_agent_1 World_init)
         [ {| path_agent_id := "agent_2"; path := [Sample.point 0 0 0] |} ]
         {| path_agent_id := "agent_1";
            path := [Sample.point 10 20 30; Sample.point 40 50 60] |}
         [ {| path_agent_id := "agent_1"; path := [Sample.point 70 80 90] |} ]
         eq_refl _ eq_refl)).
    intros q [<- | [] ]. discriminate.
  - refine (proj2 (@sol_callback_first_match_wins
                     Sample.floats Sample.patient_host Sample.executor
                     Sample.paths_for_others World_init) _).
    intros q [<- | [<- | [] ] ]; discriminate.
Defined.

(** C10 on the same message: the line shows x and z of each point, and the
    message with every y set to 0 gives the same callback. *)
Lemma sol_callback_prints_x_and_z_witness :
  finishes Sample.patient_host
    (sol_callback Sample.executor Sample.paths_for_agent_1) World_init
    {| polls := 0; calls := 0; clock_reads := 0;
       effects :=
         [Logged "PATH PUBLISHED FOR agent_1: (1.0, 3.0)-->(4.0, 6.0)"] |}
    (Returned tt) /\
  sol_callback Sample.executor
    (relabel_y (fun _ => 0%Z) Sample.paths_for_agent_1)
  = sol_callback Sample.executor Sample.paths_for_agent_1.
Proof.
  split.
  - refine (proj1 (@sol_callback_prints_x_and_z
                     Sample.floats Sample.patient_host Sample.executor
                     Sample.paths_for_agent_1 World_init)
         [ {| path_agent_id := "agent_2"; path := [Sample.point 0 0 0] |} ]
         {| path_agent_id := "agent_1";
            path := [Sample.point 10 20 30; Sample.point 40 50 60] |}
         [ {| path_agent_id := "agent_1"; path := [Sample.point 70 80 90] |} ]
         eq_refl _ eq_refl).
    intros q [<- | [] ]. discriminate.
  - apply (proj2 (@sol_callback_prints_x_and_z
                    Sample.floats Sample.patient_host Sample.executor
                    Sample.paths_for_agent_1 World_init)).
Defined.

(** C3 on a fresh Manager, as in test_agent_requests. *)
Lemma idle_enters_unassigned_agents_once_witness :
  ~ In "agent_1" (Manager.unassigned_agents Manager.init) /\
  count_occ string_dec
    (Manager.unassigned_agents
       (fst (Manager.agent_callback Sample.no_reply Manager.init
               (AgentRequest_Request IDLE "agent_1")))) "agent_1" = 1.
Proof.
  assert (Hnew : ~ In "agent_1" (Manager.unassigned_agents Manager.init))
    by (intros []).
  split; [exact Hnew |].
  apply (@idle_enters_unassigned_agents_once
           Sample.floats Sample.manager_types Sample.no_reply Manager.init
           "agent_1" Hnew).
Defined.

(** C4 on a Manager with two waiting agents. *)
Lemma disconnect_leaves_unassigned_agents_witness :
  let self :=
    Manager.with_agents ["agent_1"; "agent_2"] Manager.init in
  let self' :=
    fst (Manager.agent_callback Sample.no_reply self
           (AgentRequest_Request AGENT_DISCONNECTED "agent_1")) in
  In "agent_1" (Manager.unassigned_agents self) /\
  ~ In "agent_1" (Manager.unassigned_agents self') /\
  length (Manager.unassigned_agents self') = 1.
Proof.
  intros self self'.
  assert (Hin : In "agent_1" (Manager.unassigned_agents self))
    by (left; reflexivity).
  destruct (@disconnect_leaves_unassigned_agents
              Sample.floats Sample.manager_types Sample.no_reply self
              "agent_1" Hin) as (Hout & _ & _).
  split; [exact Hin | split; [exact Hout | reflexivity] ].
Defined.

(** C6 on a Manager that has received one goal and has no plan, as in
    test_manager_live_request. *)
Lemma idle_without_plan_waits_witness :
  let self := Manager.goal_callback Manager.init Sample.goal_1 in
  let result :=
    Manager.agent_callback Sample.no_reply self
      (AgentRequest_Request IDLE "agent_1") in
  error_msg (snd result) = WAIT_PLAN /\
  Manager.unassigned_goals (fst result) = [Sample.goal_1] /\
  Manager.unassigned_agents (fst result) = ["agent_1"].
Proof.
  intros self result.
  destruct (@idle_without_plan_waits
              Sample.floats Sample.manager_types Sample.no_reply self
              "agent_1") as (Hwait & Hgoals & _).
  - discriminate.
  - reflexivity.
  - split; [exact Hwait | split; [exact Hgoals | reflexivity] ].
Defined.

End Examples.

(** ** The further statements on the sample hosts *)

Section MoreExamples.
#[local] Existing Instance Sample.floats.
#[local] Existing Instance Sample.manager_types.

Import AgentTestExecutor.

(** X1 on the host whose service is never ready. *)
Lemma request_blocks_while_service_not_ready_witness :
  diverges MoreSamples.unready_host
    (request_and_wait_for_response Sample.executor "IDLE") World_init /\
  forall fuel,
    calls (fst (run MoreSamples.unready_host fuel
                  (request_and_wait_for_response Sample.executor "IDLE")
                  World_init)) = 0.
Proof.
  apply (@request_blocks_while_service_not_ready
           Sample.floats Sample.manager_types MoreSamples.unready_host
           Sample.executor "IDLE" World_init).
  intros i. reflexivity.
Defined.

(** X2 on the answering host, stopped in the middle of its second sleep. *)
Lemma request_effects_shape_witness :
  exists ps cs,
    effects MoreSamples.mid_sleep = effects World_init ++ ps ++ cs /\
    Forall poll_effect ps /\
    Forall (retry_effect Sample.idle_request) cs /\
    clock_reads MoreSamples.mid_sleep = clock_reads World_init.
Proof.
  apply (@request_effects_shape
           Sample.floats Sample.manager_types Sample.answering_host
           Sample.executor "IDLE" 6 World_init MoreSamples.mid_sleep None).
  reflexivity.
Defined.

(** X3 on the answering host, whose service is ready at its second poll. *)
Lemma request_sent_only_when_ready_witness :
  exists n,
    (forall i, i < n ->
       service_ready Sample.answering_host (polls World_init + i) = false) /\
    service_ready Sample.answering_host (polls World_init + n) = true /\
    polls MoreSamples.mid_sleep = polls World_init + S n.
Proof.
  apply (@request_sent_only_when_ready
           Sample.floats Sample.manager_types Sample.answering_host
           Sample.executor "IDLE" 6 World_init MoreSamples.mid_sleep None).
  - reflexivity.
  - discriminate.
Defined.

(** X4 on the backwards host: the second RETRY asks for -1 s. *)
Lemma request_raises_on_refused_sleep_witness :
  finishes MoreSamples.backwards_host
    (request_and_wait_for_response Sample.executor "IDLE") World_init
    {| polls := 1; calls := 2; clock_reads := 0;
       effects :=
         [Polled true;
          Called Sample.idle_request (Sample.retry ["2"]);
          Slept 20%Z;
          Called Sample.idle_request (Sample.retry ["-1"])] |}
    (Raised SleepError).
Proof.
  apply (@request_raises_on_refused_sleep
           Sample.floats Sample.manager_types MoreSamples.backwards_host
           Sample.executor "IDLE" (fun _ => 20%Z) (-10)%Z 0 1 World_init).
  - intros i Hi. lia.
  - reflexivity.
  - intros j Hj. destruct j as [| j]; [| lia]. repeat split.
  - reflexivity.
  - reflexivity.
  - reflexivity.
Defined.

(** X5 on the answering host. *)
Lemma request_returns_only_after_valid_retries_witness :
  exists (n k : nat) (delays : nat -> Z),
    (forall i, i < n -> service_ready Sample.answering_host (0 + i) = false) /\
    service_ready Sample.answering_host (0 + n) = true /\
    (forall j, j < k ->
       error_msg (server Sample.answering_host (0 + j) Sample.idle_request)
         = "RETRY" /\
       retry_delay (server Sample.answering_host (0 + j) Sample.idle_request)
         = Some (delays j) /\
       sleep_accepts (delays j) = true) /\
    error_msg (server Sample.answering_host (0 + k) Sample.idle_request)
      <> "RETRY" /\
    {| polls := 2; calls := 3; clock_reads := 0;
       effects :=
         [Polled false; Slept 1%Z; Polled true;
          Called Sample.idle_request (Sample.retry ["2"]);
          Slept 20%Z;
          Called Sample.idle_request (Sample.retry ["0"]);
          Slept 0%Z;
          Called Sample.idle_request Sample.wait_plan] |}
    = {| polls := 0 + S n; calls := 0 + S k; clock_reads := 0;
         effects := []
           ++ concat (repeat [Polled false; Slept 1%Z] n)
           ++ [Polled true]
           ++ [Called Sample.idle_request
                 (server Sample.answering_host (0 + 0) Sample.idle_request)]
           ++ flat_map
                (fun j => [Slept (delays j);
                           Called Sample.idle_request
                             (server Sample.answering_host (0 + S j)
                                Sample.idle_request)])
                (seq 0 k) |}.
Proof.
  apply (@request_returns_only_after_valid_retries
           Sample.floats Sample.manager_types Sample.answering_host
           Sample.executor "IDLE" World_init).
  exists 20. reflexivity.
Defined.


(** X6 on the answering host, where both calls return. *)
Lemma reconnect_follows_disconnect_witness :
  exists (fuel1 : nat) (w1 : World) (o1 : option (Result unit))
         (e1 e2 : list Effect),
    run Sample.answering_host fuel1
      (request_and_wait_for_response Sample.executor AGENT_DISCONNECTED)
      World_init = (w1, o1) /\
    effects w1 = effects World_init ++ e1 /\
    effects MoreSamples.reconnected = effects World_init ++ e1 ++ e2 /\
    Forall (request_effect MoreSamples.disconnect_request) e1 /\
    Forall (request_effect Sample.idle_request) e2 /\
    (forall response,
       ~ In (Called MoreSamples.disconnect_request response) e2) /\
    ((o1 = Some (Returned tt) /\
      exists fuel2,
        run Sample.answering_host fuel2
          (request_and_wait_for_response Sample.executor IDLE) w1
        = (MoreSamples.reconnected, Some (Returned tt))) \/
     (o1 <> Some (Returned tt) /\ MoreSamples.reconnected = w1 /\
      Some (Returned tt) = o1 /\ e2 = [])).
Proof.
  apply (@reconnect_follows_disconnect
           Sample.floats Sample.manager_types Sample.answering_host
           Sample.executor 40 World_init MoreSamples.reconnected
           (Some (Returned tt))).
  reflexivity.
Defined.

(** X7 on the bare-retry host, where the disconnect call raises, and on the
    patient host, where it never ends. *)
Lemma reconnect_not_attempted_after_failure_witness :
  finishes Sample.bare_retry_host (disconect_and_reconnect Sample.executor)
    World_init
    {| polls := 1; calls := 1; clock_reads := 0;
       effects := [Polled true;
                   Called MoreSamples.disconnect_request (Sample.retry [])] |}
    (Raised IndexError) /\
  diverges Sample.patient_host (disconect_and_reconnect Sample.executor)
    World_init.
Proof.
  split.
  - apply (proj1 (@reconnect_not_attempted_after_failure
                    Sample.floats Sample.manager_types Sample.bare_retry_host
                    Sample.executor World_init)).
    exists 4. reflexivity.
  - apply (proj2 (@reconnect_not_attempted_after_failure
                    Sample.floats Sample.manager_types Sample.patient_host
                    Sample.executor World_init)).
    apply method_diverges. intros j.
    destruct j as [| j]; (split; [reflexivity |]);
      exists 10%Z; split; reflexivity.
Defined.

(** X8 on the answering host: one busy poll and two retries for the
    disconnect request, then the idle request answered at once. *)
Lemma disconnect_then_reconnect_returns_witness :
  exists w',
    finishes Sample.answering_host (disconect_and_reconnect Sample.executor)
      World_init w' (Returned tt) /\
    polls w' = 3 /\
    calls w' = 4.
Proof.
  apply (@disconnect_then_reconnect_returns
           Sample.floats Sample.manager_types Sample.answering_host
           Sample.executor (fun j => nth j [20%Z; 0%Z] 0%Z) (fun _ => 0%Z)
           1 2 0 0 World_init).
  - intros i Hi. destruct i as [| i]; [reflexivity | lia].
  - reflexivity.
  - intros j Hj. destruct j as [| [| j] ]; [| | lia]; repeat split.
  - discriminate.
  - intros i Hi. lia.
  - reflexivity.
  - intros j Hj. lia.
  - discriminate.
Defined.

(** X10 on the message for agent_1: the third entry can be dropped. *)
Lemma sol_callback_ignores_later_entries_witness :
  sol_callback Sample.executor Sample.paths_for_agent_1 =
  sol_callback Sample.executor
    {| agent_paths :=
         [ {| path_agent_id := "agent_2"; path := [Sample.point 0 0 0] |};
           {| path_agent_id := "agent_1";
              path := [Sample.point 10 20 30; Sample.point 40 50 60] |} ] |}.
Proof.
  apply (@sol_callback_ignores_later_entries
           Sample.floats Sample.executor
           [ {| path_agent_id := "agent_2"; path := [Sample.point 0 0 0] |} ]
           {| path_agent_id := "agent_1";
              path := [Sample.point 10 20 30; Sample.point 40 50 60] |}
           [ {| path_agent_id := "agent_1"; path := [Sample.point 70 80 90] |} ]
           []).
  reflexivity.
Defined.

(** X12 on a message whose entry for agent_1 is empty and on one whose
    entry has one point. *)
Lemma sol_callback_short_paths_witness :
  finishes Sample.patient_host
    (sol_callback Sample.executor MoreSamples.empty_path_for_agent_1)
    World_init
    {| polls := 0; calls := 0; clock_reads := 0;
       effects := [Logged "PATH PUBLISHED FOR agent_1: "] |}
    (Returned tt) /\
  finishes Sample.patient_host
    (sol_callback Sample.executor MoreSamples.one_point_for_agent_1)
    World_init
    {| polls := 0; calls := 0; clock_reads := 0;
       effects := [Logged "PATH PUBLISHED FOR agent_1: (1.0, 3.0)"] |}
    (Returned tt).
Proof.
  split.
  - refine (proj1 (@sol_callback_short_paths
                     Sample.floats Sample.patient_host Sample.executor
                     MoreSamples.empty_path_for_agent_1 World_init
                     [ {| path_agent_id := "agent_2";
                          path := [Sample.point 0 0 0] |} ]
                     {| path_agent_id := "agent_1"; path := [] |} []
                     eq_refl _ eq_refl) eq_refl).
    intros q [<- | [] ]. discriminate.
  - refine (proj2 (@sol_callback_short_paths
                     Sample.floats Sample.patient_host Sample.executor
                     MoreSamples.one_point_for_agent_1 World_init
                     []
                     {| path_agent_id := "agent_1";
                        path := [Sample.point 10 20 30] |} []
                     eq_refl _ eq_refl) (Sample.point 10 20 30) eq_refl).
    intros q [].
Defined.

End MoreExamples.
